(** * mailerlite-go: the request/response pipeline and the pagination cursor

    A shallow embedding of [client.go] and [meta.go].

    Go strings and byte slices are Rocq [string]s (sequences of 8-bit
    characters), [int] is [Z], [map[string][]string] is
    [gmap string (list string)], a nilable pointer is an [option], and a
    pair [(T, error)] is a pair whose second component is [option error]
    ([None] is Go's [nil]).  A run-time panic (nil dereference, index out of
    range) is an outer [None].

    The Go standard library and [go-querystring] are not part of the
    repository.  Their data types are declared in the modules [context],
    [url], [http] and [json] below; their functions ([url.Parse],
    [json.Unmarshal], [query.Values], ...) are section variables, so every
    theorem holds for whatever these functions compute.  Module [Sample]
    near the end of the definitions supplies one concrete implementation to
    run the pipeline on examples. *)

From Stdlib Require Import Ascii.
From stdpp Require Import base option strings list gmap pretty sorting.

Open Scope string_scope.
Open Scope Z_scope.

(** ** Library data types *)

(** Errors produced outside the repository (net/url, encoding/json,
    go-querystring, the transport, the context) are identified by their
    message. *)
Definition exterr := string.

(** The newline character. *)
Definition LF : string := String (Ascii.ascii_of_nat 10) "".

Module context.
(** A [context.Context] as the executor observes it: whether the channel
    returned by [Done()] is closed, and what [Err()] returns. *)
Record Context := mkContext { Done : bool; Err : option exterr }.
Definition Background : Context := {| Done := false; Err := None |}.
End context.

Module url.
(** [url.Userinfo]: a username and an optional password. *)
Record Userinfo := mkUserinfo { username : string; password : option string }.

(** [url.URL], field by field. *)
Record URL := mkURL {
  Scheme : string;
  Opaque : string;
  User : option Userinfo;
  Host : string;
  Path : string;
  RawPath : string;
  ForceQuery : bool;
  RawQuery : string;
  Fragment : string;
  RawFragment : string
}.

(** The assignment [u.RawQuery = q]. *)
Definition set_RawQuery (q : string) (u : URL) : URL :=
  {| Scheme := Scheme u; Opaque := Opaque u; User := User u; Host := Host u;
     Path := Path u; RawPath := RawPath u; ForceQuery := ForceQuery u;
     RawQuery := q; Fragment := Fragment u; RawFragment := RawFragment u |}.

(** [url.Values] is [map[string][]string]. *)
Abbreviation Values := (gmap string (list string)).

(** [Values.Get]: the first value of the key, or the empty string. *)
Definition Get (v : Values) (key : string) : string :=
  match v !! key with
  | Some (x :: _) => x
  | _ => ""
  end.

(** [Values.Add]: append to the key's list of values. *)
Definition Add (key value : string) (v : Values) : Values :=
  <[key := (default [] (v !! key) ++ [value])%list]> v.
End url.

Module io.
(** The state of an [io.ReadCloser]: the bytes it has still to deliver and
    the error, if any, with which reading ends instead of [io.EOF]. *)
Record Reader := mkReader { pending : string; fault : option exterr }.

(** [ioutil.ReadAll]: everything up to the end or the fault, which is
    returned as the error; the reader is left drained. *)
Definition ReadAll (b : Reader) : string * option exterr * Reader :=
  (pending b, fault b, {| pending := ""; fault := fault b |}).
End io.

Module http.
Abbreviation Header := (gmap string (list string)).

(** [Header.Set] and [Header.Add]; the keys the pipeline passes are in
    canonical form already. *)
Definition Header_Set (key value : string) (h : Header) : Header :=
  <[key := [value]]> h.
Definition Header_Add (key value : string) (h : Header) : Header :=
  <[key := (default [] (h !! key) ++ [value])%list]> h.

Record Request := mkRequest {
  Method : string;
  URL : option url.URL;
  Header_of : Header;
  ReqBody : string;
  Ctx : context.Context
}.

(** [Request.WithContext]. *)
Definition WithContext (ctx : context.Context) (req : Request) : Request :=
  {| Method := Method req; URL := URL req; Header_of := Header_of req;
     ReqBody := ReqBody req; Ctx := ctx |}.

Record Response := mkResponse {
  StatusCode : Z;
  Request_of : option Request;
  Body : io.Reader
}.

(** The assignment of a new state to [r.Body]. *)
Definition set_Body (b : io.Reader) (r : Response) : Response :=
  {| StatusCode := StatusCode r; Request_of := Request_of r; Body := b |}.

(** [http.Client], reduced to its [Do] method (the transport). *)
Record Client := mkClient { Do : Request → Response + exterr }.

Definition StatusAccepted : Z := 202.
Definition StatusUnauthorized : Z := 401.
Definition MethodGet := "GET".
Definition MethodPost := "POST".
Definition MethodPut := "PUT".
Definition MethodDelete := "DELETE".
End http.

Module json.
(** What [encoding/json] stores in an [interface{}]; a number keeps its
    literal, JSON [null] is Go's [nil] and hence no [Value]. *)
#[warnings="-register-all"]
Inductive Value :=
| VBool (b : bool)
| VNumber (literal : string)
| VString (s : string)
| VArray (l : list (option Value))
| VObject (m : list (string * option Value)).

(** The outcome of [json.Unmarshal(data, errorResponse)] on the error
    record that the classifier has just built around the response [r].

    [message] and [errors] are the two tagged fields as the decoder leaves
    them, [failure] is the decoder's verdict; a decoder that fails on a type
    mismatch has still stored the fields it could decode.

    The third field of the record, [Response], is exported and has no tag,
    so a body member of that name is decoded into it: through the pointer
    into [r] itself, or, for [null], by setting the pointer to nil.
    [response] is that effect: from the state of [r] before the call to
    what the field [Response] refers to after it ([None] for nil) and the
    state in which [r] is left.  The states are those a [http.Response] of
    this development has: a status code, a request or none, and a body; a
    member that sets the body of [r] to nil has no counterpart among
    them. *)
Record Decoded := mkDecoded {
  message : string;
  errors : option Value;
  failure : option exterr;
  response : http.Response → option http.Response * http.Response
}.

(** The effect of a body without a member [Response]: the field still
    points to [r], and [r] is as it was. *)
Definition untouched (r : http.Response) : option http.Response * http.Response :=
  (Some r, r).
End json.

(** ** client.go: types *)

Definition APIBase : string := "https://connect.mailerlite.com/api".

Record Client := mkClient {
  apiBase : string;
  apiKey : string;
  client : http.Client
}.

(** [Response] embeds [*http.Response]. *)
Record Response := mkResponse { embedded : http.Response }.

(** [ErrorResponse]; its field [Response] is [er_Response] here, the name
    [Response] being taken by the wrapper type.  The field is a pointer:
    [None] is nil, [Some x] gives the state [x] of the response it points
    to when the classifier returns. *)
Record ErrorResponse := mkErrorResponse {
  er_Response : option http.Response;
  Message : string;
  Errors : option json.Value
}.

(** [type AuthError ErrorResponse]. *)
Definition AuthError := ErrorResponse.

(** Go's [error] interface, by dynamic type. *)
Inductive error :=
| ErrorResponse_ptr (e : ErrorResponse)
| AuthError_ptr (e : AuthError)
| External (e : exterr).

(** An [interface{}] handed to the pipeline as body or options: the nil
    interface, a typed nil pointer, or any other value, of which the
    pipeline only knows what the libraries make of it. *)
Inductive GoValue (T : Type) :=
| Nil
| NilPtr
| Val (x : T).
Arguments Nil {T}.
Arguments NilPtr {T}.
Arguments Val {T} x.

(** [reflect.ValueOf(opt)] has kind [Ptr] and is nil. *)
Definition is_nil_ptr {T} (opt : GoValue T) : bool :=
  match opt with
  | NilPtr => true
  | _ => false
  end.

(** The variables of the loop of [addOptions]. *)
Record loopState := mkLoopState {
  origValues : url.Values;
  filterKey : string;
  filterValue : string
}.

(** meta.go *)
Record Links := mkLinks {
  First : string;
  Last : string;
  Prev : string;
  Next : string
}.

(** ** External functions

    The functions of the Go standard library and of [go-querystring] that
    the pipeline calls.  [Payload] is the type of the values, other than
    nil, that callers pass as body or options; [Target] is the state of the
    value a decode target points to. *)
Class Library := {
  Payload : Type;
  Target : Type;
  (* net/url *)
  url_Parse : string → url.URL + exterr;
  url_ParseRequestURI : string → url.URL + exterr;
  url_ParseQuery : string → url.Values;
  Values_Encode : url.Values → string;
  URL_String : url.URL → string;
  (* encoding/json *)
  json_Unmarshal : string → json.Decoded;
  json_Marshal : GoValue Payload → string + exterr;
  json_Decode : io.Reader → Target → Target * io.Reader * option exterr;
  (* go-querystring *)
  query_Values : GoValue Payload → url.Values + exterr;
  (* net/http, io, strconv *)
  http_DefaultClient : http.Client;
  http_NewRequest : string → string → string → http.Request + exterr;
  Body_Close : io.Reader → io.Reader;
  strconv_Atoi : string → Z + exterr
}.

Section Pipeline.

Context {L : Library}.

(** [%v] applied to a [*url.URL]: [fmt] calls [String()], and prints
    [<nil>] for a nil pointer. *)
Definition fmt_v_URL (u : option url.URL) : string :=
  match u with
  | Some u => URL_String u
  | None => "<nil>"
  end.

(** [URL.Query]: [ParseQuery] of the raw query, its error dropped. *)
Definition URL_Query (u : url.URL) : url.Values := url_ParseQuery (url.RawQuery u).

(** ** client.go: the client *)

(** [NewClient]; the service handles of the client are outside the
    pipeline. *)
Definition NewClient (apiKey : string) : Client :=
  {| apiBase := APIBase; apiKey := apiKey; client := http_DefaultClient |}.

Definition APIKey (c : Client) : string := apiKey c.

(** The method [Client] of [Client]. *)
Definition Client_Client (c : Client) : http.Client := client c.

(** The setters assign to a field of [c]; they return [c] in its new
    state. *)
Definition SetHttpClient (transport : http.Client) (c : Client) : Client :=
  {| apiBase := apiBase c; apiKey := apiKey c; client := transport |}.

Definition SetAPIKey (apikey : string) (c : Client) : Client :=
  {| apiBase := apiBase c; apiKey := apikey; client := client c |}.

(** ** client.go: errors *)

(** The method [Error] of [ErrorResponse]; [None] is the nil dereference
    of [r.Response] or of [r.Response.Request]. *)
Definition ErrorResponse_Error (r : ErrorResponse) : option string :=
  resp ← er_Response r;
  req ← http.Request_of resp;
  Some (http.Method req +:+ " " +:+ fmt_v_URL (http.URL req) +:+ ": "
        +:+ pretty (http.StatusCode resp) +:+ " " +:+ Message r).

Definition AuthError_Error (r : AuthError) : option string := ErrorResponse_Error r.

(** [err.Error()] for the errors of the pipeline. *)
Definition Error (e : error) : option string :=
  match e with
  | ErrorResponse_ptr r => ErrorResponse_Error r
  | AuthError_ptr r => AuthError_Error r
  | External m => Some m
  end.

(** ** client.go: the classifier *)

Definition newResponse (r : http.Response) : Response := {| embedded := r |}.

(** [checkResponse] reads [r.Body], and the decoder may write to [r]
    through the field [Response] of the record, so the response is returned
    in its new state next to the verdict.  The [switch] comes after the
    decoder and reads the status code that [r] has then. *)
Definition checkResponse (r : http.Response) : option error * http.Response :=
  if decide (http.StatusCode r = http.StatusAccepted) then (None, r)
  else if decide (200 ≤ http.StatusCode r ∧ http.StatusCode r ≤ 299) then (None, r)
  else
    let '(data, err, body) := io.ReadAll (http.Body r) in
    let r := http.set_Body body r in
    let errorResponse := {| er_Response := Some r; Message := ""; Errors := None |} in
    let '(errorResponse, r) :=
      if decide (err = None ∧ (0 < String.length data)%nat) then
        let d := json_Unmarshal data in
        let '(pointer, r) := json.response d r in
        let errorResponse :=
          {| er_Response := pointer; Message := json.message d;
             Errors := json.errors d |} in
        match json.failure d with
        | Some _ =>
            ({| er_Response := pointer; Message := data;
                Errors := Errors errorResponse |}, r)
        | None => (errorResponse, r)
        end
      else (errorResponse, r) in
    if decide (http.StatusCode r = http.StatusUnauthorized)
    then (Some (AuthError_ptr errorResponse), r)
    else (Some (ErrorResponse_ptr errorResponse), r).

(** ** client.go: the option encoder *)

(** One iteration of [for k, v := range newValues]; [v[0]] panics on an
    empty slice. *)
Definition addOptions_step (st : option loopState) (kv : string * list string)
  : option loopState :=
  st ← st;
  let '(k, v) := kv in
  if decide (k = "Filter") then Some st
  else if decide (k = "Filter[Name]") then
    v0 ← v !! 0%nat;
    Some {| origValues := origValues st;
            filterKey := "filter[" +:+ v0 +:+ "]";
            filterValue := filterValue st |}
  else if decide (k = "Filter[Value]") then
    v0 ← v !! 0%nat;
    Some {| origValues := origValues st;
            filterKey := filterKey st;
            filterValue := v0 |}
  else
    Some {| origValues := <[k := v]> (origValues st);
            filterKey := filterKey st;
            filterValue := filterValue st |}.

(** The loop, run over the entries in the order [entries]; Go leaves the
    order of a map iteration open. *)
Definition addOptions_loop (entries : list (string * list string)) (st : loopState)
  : option loopState :=
  foldl addOptions_step (Some st) entries.

(** What the loop and the conditional [Add] make of the values of the URL
    and the values of the options. *)
Definition addOptions_values (origValues0 newValues : url.Values) : option url.Values :=
  st ← addOptions_loop (map_to_list newValues)
         {| origValues := origValues0; filterKey := ""; filterValue := "" |};
  Some (if decide (filterKey st ≠ "")
        then url.Add (filterKey st) (filterValue st) (origValues st)
        else origValues st).

Definition addOptions (s : string) (opt : GoValue Payload)
  : option (string * option error) :=
  if is_nil_ptr opt then Some (s, None)
  else
    match url_Parse s with
    | inr err => Some (s, Some (External err))
    | inl origURL =>
        match query_Values opt with
        | inr err => Some (s, Some (External err))
        | inl newValues =>
            values ← addOptions_values (URL_Query origURL) newValues;
            let origURL := url.set_RawQuery (Values_Encode values) origURL in
            Some (URL_String origURL, None)
        end
    end.

(** ** client.go: the request builder *)

(** [json.NewEncoder(w).Encode(v)]: the JSON encoding of [v] and a newline
    are appended to the buffer [w]. *)
Definition json_Encode (w : string) (v : GoValue Payload) : string * option exterr :=
  match json_Marshal v with
  | inl b => (w +:+ b +:+ LF, None)
  | inr err => (w, Some err)
  end.

Definition set_Header (h : http.Header) (req : http.Request) : http.Request :=
  {| http.Method := http.Method req; http.URL := http.URL req; http.Header_of := h;
     http.ReqBody := http.ReqBody req; http.Ctx := http.Ctx req |}.

(** The four header assignments of [newRequest]. *)
Definition set_headers (c : Client) (req : http.Request) : http.Request :=
  let h := http.Header_of req in
  let h := http.Header_Set "Content-Type" "application/json" h in
  let h := http.Header_Add "Authorization" ("Bearer " +:+ apiKey c) h in
  let h := http.Header_Set "Accept" "application/json" h in
  let h := http.Header_Set "User-Agent" "Mailerlite-Client-Golang-v1" h in
  set_Header h req.

(** [newRequest] from the call of [http.NewRequest] on. *)
Definition newRequest_send (c : Client) (method reqURL reqBodyBytes : string)
  : option http.Request * option error :=
  match http_NewRequest method reqURL reqBodyBytes with
  | inr err => (None, Some (External err))
  | inl req => (Some (set_headers c req), None)
  end.

Definition newRequest (c : Client) (method path : string) (body : GoValue Payload)
  : option (option http.Request * option error) :=
  let reqURL := apiBase c +:+ path in
  let reqBodyBytes := "" in
  if decide (method = http.MethodPost ∨ method = http.MethodPut
             ∨ method = http.MethodDelete) then
    match json_Encode reqBodyBytes body with
    | (_, Some err) => Some (None, Some (External err))
    | (reqBodyBytes, None) => Some (newRequest_send c method reqURL reqBodyBytes)
    end
  else if decide (method = http.MethodGet) then
    '(reqURL, _) ← addOptions reqURL body;
    Some (newRequest_send c method reqURL reqBodyBytes)
  else Some (newRequest_send c method reqURL reqBodyBytes).

(** ** client.go: the executor *)

(** [do] returns the response, the error, and the state of the decode
    target [v].  [ctx] is the context as it is when the [select] runs. *)
Definition do (c : Client) (ctx : context.Context) (req : http.Request)
    (v : option Target) : option Response * option error * option Target :=
  let req := http.WithContext ctx req in
  match http.Do (client c) req with
  | inr err =>
      if context.Done ctx then (None, External <$> context.Err ctx, v)
      else (None, Some (External err), v)
  | inl resp =>
      match checkResponse resp with
      | (Some err, resp) =>
          let resp := http.set_Body (Body_Close (http.Body resp)) resp in
          (Some (newResponse resp), Some err, v)
      | (None, resp) =>
          match v with
          | Some target =>
              let '(target, body, err) := json_Decode (http.Body resp) target in
              let resp := http.set_Body body resp in
              match err with
              | Some err => (None, Some (External err), Some target)
              | None => (Some (newResponse resp), None, Some target)
              end
          | None => (Some (newResponse resp), None, None)
          end
      end
  end.

(** ** meta.go: the pagination cursor *)

Definition pageForURL (urlText : string) : Z * option error :=
  match url_ParseRequestURI urlText with
  | inr err => (0, Some (External err))
  | inl u =>
      let pageStr := url.Get (URL_Query u) "page" in
      match strconv_Atoi pageStr with
      | inr err => (0, Some (External err))
      | inl page => (page, None)
      end
  end.

Definition pageTokenFromURL (urlText : string) : string * option error :=
  match url_ParseRequestURI urlText with
  | inr err => ("", Some (External err))
  | inl u => (url.Get (URL_Query u) "page_token", None)
  end.

Definition nextPageToken (l : option Links) : string * option error :=
  match l with
  | None => ("", None)
  | Some l =>
      if decide (Next l = "") then ("", None)
      else
        match pageTokenFromURL (Next l) with
        | (_, Some err) => ("", Some err)
        | (token, None) => (token, None)
        end
  end.

Definition prevPageToken (l : option Links) : string * option error :=
  match l with
  | None => ("", None)
  | Some l =>
      if decide (Prev l = "") then ("", None)
      else
        match pageTokenFromURL (Prev l) with
        | (_, Some err) => ("", Some err)
        | (token, None) => (token, None)
        end
  end.

Definition NextPageToken (l : option Links) : string * option error := nextPageToken l.
Definition PrevPageToken (l : option Links) : string * option error := prevPageToken l.

(** [isLast] reads [l.Next] without a nil check: [None] is the panic. *)
Definition isLast (l : option Links) : option bool :=
  l ← l; Some (bool_decide (Next l = "")).

Definition IsLastPage (l : option Links) : option bool := isLast l.

End Pipeline.

(** ** A sample library

    One implementation of [Library], to run the pipeline on examples.  It
    follows net/url, encoding/json, go-querystring and net/http on the
    inputs described at each function, and reports an error (marked
    [sample:]) on inputs it does not cover. *)
Module Sample.

(** *** Strings *)

(** [strings.Cut] with a one-byte separator. *)
Fixpoint cut (sep : ascii) (s : string) : string * option string :=
  match s with
  | "" => ("", None)
  | String a s' =>
      if decide (a = sep) then ("", Some s')
      else let '(before, after) := cut sep s' in (String a before, after)
  end.

(** [strings.Split] with a one-byte separator. *)
Fixpoint split (sep : ascii) (s : string) : list string :=
  match s with
  | "" => [""]
  | String a s' =>
      match split sep s' with
      | piece :: pieces =>
          if decide (a = sep) then "" :: piece :: pieces
          else String a piece :: pieces
      | [] => []
      end
  end.

Fixpoint join (sep : string) (l : list string) : string :=
  match l with
  | [] => ""
  | [x] => x
  | x :: l => x +:+ sep +:+ join sep l
  end.

Fixpoint all_bytes (p : ascii → bool) (s : string) : bool :=
  match s with
  | "" => true
  | String a s' => p a && all_bytes p s'
  end.

Definition code (a : ascii) : N := Ascii.N_of_ascii a.

Definition between (lo hi : string) (a : ascii) : bool :=
  match lo, hi with
  | String l _, String h _ => (code l <=? code a)%N && (code a <=? code h)%N
  | _, _ => false
  end.

Definition is_lower (a : ascii) : bool := between "a" "z" a.
Definition is_upper (a : ascii) : bool := between "A" "Z" a.
Definition is_digit (a : ascii) : bool := between "0" "9" a.
Definition is_alnum (a : ascii) : bool := is_lower a || is_upper a || is_digit a.
Definition is_one_of (set : string) (a : ascii) : bool :=
  negb (all_bytes (λ b, negb (bool_decide (a = b))) set).

(** An ASCII control character. *)
Definition is_ctl (a : ascii) : bool := (code a <? 32)%N || (code a =? 127)%N.

(** *** net/url: query strings *)

Definition hex_digit (n : N) : ascii :=
  Ascii.ascii_of_N (if (n <? 10)%N then 48 + n else 55 + n)%N.

Definition unhex (a : ascii) : option N :=
  if is_digit a then Some (code a - 48)%N
  else if between "a" "f" a then Some (code a - 87)%N
  else if between "A" "F" a then Some (code a - 55)%N
  else None.

(** [shouldEscape] in the mode of query components. *)
Definition shouldEscape (a : ascii) : bool :=
  negb (is_alnum a || is_one_of "-_.~" a).

Fixpoint QueryEscape (s : string) : string :=
  match s with
  | "" => ""
  | String a s' =>
      if decide (a = " "%char) then String "+" (QueryEscape s')
      else if shouldEscape a then
        String "%" (String (hex_digit (code a / 16)) (String (hex_digit (code a mod 16))
          (QueryEscape s')))
      else String a (QueryEscape s')
  end.

(** [QueryUnescape]; [None] is the error of an invalid escape. *)
Fixpoint QueryUnescape (s : string) : option string :=
  match s with
  | "" => Some ""
  | String a s' =>
      if decide (a = "%"%char) then
        match s' with
        | String h (String l s'') =>
            match unhex h, unhex l, QueryUnescape s'' with
            | Some h, Some l, Some r => Some (String (Ascii.ascii_of_N (16 * h + l)) r)
            | _, _, _ => None
            end
        | _ => None
        end
      else
        r ← QueryUnescape s';
        Some (String (if decide (a = "+"%char) then " "%char else a) r)
  end.

(** One step of the loop of [parseQuery]: pairs with a semicolon, an empty
    pair or an invalid escape are skipped. *)
Definition parseQuery_step (m : url.Values) (pair : string) : url.Values :=
  if negb (all_bytes (λ a, negb (bool_decide (a = ";"%char))) pair) then m
  else if decide (pair = "") then m
  else
    let '(key, value) := cut "=" pair in
    match QueryUnescape key, QueryUnescape (default "" value) with
    | Some key, Some value => url.Add key value m
    | _, _ => m
    end.

Definition ParseQuery (query : string) : url.Values :=
  foldl parseQuery_step ∅ (split "&" query).

(** [Values.Encode]: the keys in sorted order, every value of a key as
    [key=value], joined by [&]. *)
Definition Encode (v : url.Values) : string :=
  let keys := merge_sort String.le (fst <$> map_to_list v) in
  join "&" (k ← keys;
            (λ x, QueryEscape k +:+ "=" +:+ QueryEscape x) <$> default [] (v !! k)).

(** *** net/url: URLs

    [parse] covers URLs of the form [scheme://host/path?query#fragment]
    with a lower-case scheme, a host of lower-case letters, digits, dots and
    hyphens, and a path and fragment of unreserved characters and slashes. *)

Definition is_host_byte (a : ascii) : bool := is_lower a || is_digit a || is_one_of ".-" a.
Definition is_path_byte (a : ascii) : bool := is_alnum a || is_one_of "/-_.~" a.

Definition strip_slashes (s : string) : option string :=
  match s with
  | String "/" (String "/" s') => Some s'
  | _ => None
  end.

Definition outside : exterr := "sample: URL outside the modelled fragment of net/url".

Definition parse (viaRequest : bool) (rawURL : string) : url.URL + exterr :=
  if negb (all_bytes (λ a, negb (is_ctl a)) rawURL)
  then inr "net/url: invalid control character in URL"
  else
    let '(u, frag) := if viaRequest then (rawURL, None) else cut "#" rawURL in
    let '(rest, query) := cut "?" u in
    match cut ":" rest with
    | (scheme, Some rest) =>
        match strip_slashes rest with
        | Some rest =>
            let '(host, path) := cut "/" rest in
            let path := from_option (String "/"%char) "" path in
            if negb (bool_decide (scheme = "")) && all_bytes is_lower scheme
               && negb (bool_decide (host = "")) && all_bytes is_host_byte host
               && all_bytes is_path_byte path
               && all_bytes is_path_byte (default "" frag)
            then inl {| url.Scheme := scheme; url.Opaque := ""; url.User := None;
                        url.Host := host; url.Path := path; url.RawPath := "";
                        url.ForceQuery := bool_decide (query = Some "");
                        url.RawQuery := default "" query;
                        url.Fragment := default "" frag; url.RawFragment := "" |}
            else inr outside
        | None => inr outside
        end
    | _ => inr outside
    end.

Definition Parse : string → url.URL + exterr := parse false.
Definition ParseRequestURI : string → url.URL + exterr := parse true.

(** [URL.String] for URLs whose user, host, path and fragment need no
    escaping. *)
Definition URLString (u : url.URL) : string :=
  (if decide (url.Scheme u = "") then "" else url.Scheme u +:+ ":")
  +:+ (if decide (url.Opaque u = "") then
         (if decide (url.Scheme u ≠ "" ∨ url.Host u ≠ "" ∨ url.User u ≠ None) then
            (if decide (url.Host u ≠ "" ∨ url.Path u ≠ "" ∨ url.User u ≠ None)
             then "//" else "")
            +:+ match url.User u with
                | Some ui =>
                    url.username ui
                    +:+ from_option (λ p, ":" +:+ p) "" (url.password ui) +:+ "@"
                | None => ""
                end
            +:+ url.Host u
          else "")
         +:+ match url.Path u with
             | String a _ =>
                 if decide (a ≠ "/"%char ∧ url.Host u ≠ "") then "/" else ""
             | "" => ""
             end
         +:+ url.Path u
       else url.Opaque u)
  +:+ (if decide (url.ForceQuery u = true ∨ url.RawQuery u ≠ "")
       then "?" +:+ url.RawQuery u else "")
  +:+ (if decide (url.Fragment u = "") then "" else "#" +:+ url.Fragment u).

(** *** encoding/json

    The decoder covers JSON documents in ASCII whose strings have no escape
    sequences and whose numbers are integers.  Of a member [Response], the
    field of [ErrorResponse] without a tag, it covers [null] and an object
    with an integer [StatusCode] or a [Request] that is [null]. *)

Inductive parsed (A : Type) :=
| Ok (x : A)
| Invalid
| Unmodelled.
Arguments Ok {A} x.
Arguments Invalid {A}.
Arguments Unmodelled {A}.

Definition andThen {A B} (p : parsed A) (k : A → parsed B) : parsed B :=
  match p with
  | Ok x => k x
  | Invalid => Invalid
  | Unmodelled => Unmodelled
  end.

Definition quote : ascii := Ascii.ascii_of_nat 34.
Definition backslash : ascii := Ascii.ascii_of_nat 92.

Definition is_ws (a : ascii) : bool :=
  bool_decide (a = " "%char) || (code a =? 9)%N || (code a =? 10)%N || (code a =? 13)%N.

Fixpoint skip_ws (s : string) : string :=
  match s with
  | String a s' => if is_ws a then skip_ws s' else s
  | "" => ""
  end.

(** The rest of a string literal after its opening quote. *)
Fixpoint string_rest (s : string) : parsed (string * string) :=
  match s with
  | "" => Invalid
  | String a s' =>
      if decide (a = quote) then Ok ("", s')
      else if (code a <? 32)%N then Invalid
      else if decide (a = backslash) then Unmodelled
      else if (127 <? code a)%N then Unmodelled
      else andThen (string_rest s') (λ '(r, rest), Ok (String a r, rest))
  end.

Fixpoint digits (s : string) : string * string :=
  match s with
  | String a s' =>
      if is_digit a then let '(d, rest) := digits s' in (String a d, rest) else ("", s)
  | "" => ("", "")
  end.

(** An integer literal; a fraction or an exponent is not covered. *)
Definition number (s : string) : parsed (string * string) :=
  let '(sign, s) := match s with
                    | String "-" s' => ("-", s')
                    | _ => ("", s)
                    end in
  let '(d, rest) := digits s in
  match d with
  | "" => Invalid
  | String "0" (String _ _) => Invalid
  | _ =>
      match rest with
      | String a _ => if is_one_of ".eE" a then Unmodelled else Ok (sign +:+ d, rest)
      | "" => Ok (sign +:+ d, rest)
      end
  end.

Definition keyword (k : string) (s : string) : option string :=
  if String.prefix k s then Some (String.substring (String.length k)
                                    (String.length s - String.length k) s)
  else None.

(** A JSON value and what follows it; [n] bounds the nesting and the number
    of members. *)
Fixpoint value (n : nat) (s : string) : parsed (option json.Value * string) :=
  match n with
  | O => Unmodelled
  | S n =>
      match skip_ws s with
      | "" => Invalid
      | String a s' =>
          if decide (a = "{"%char) then
            match skip_ws s' with
            | String "}" rest => Ok (Some (json.VObject []), rest)
            | _ => andThen (members n s') (λ '(m, rest), Ok (Some (json.VObject m), rest))
            end
          else if decide (a = "["%char) then
            match skip_ws s' with
            | String "]" rest => Ok (Some (json.VArray []), rest)
            | _ => andThen (elements n s') (λ '(l, rest), Ok (Some (json.VArray l), rest))
            end
          else if decide (a = quote) then
            andThen (string_rest s') (λ '(x, rest), Ok (Some (json.VString x), rest))
          else if is_digit a || bool_decide (a = "-"%char) then
            andThen (number (String a s')) (λ '(x, rest), Ok (Some (json.VNumber x), rest))
          else
            match keyword "null" (String a s'), keyword "true" (String a s'),
                  keyword "false" (String a s') with
            | Some rest, _, _ => Ok (None, rest)
            | _, Some rest, _ => Ok (Some (json.VBool true), rest)
            | _, _, Some rest => Ok (Some (json.VBool false), rest)
            | _, _, _ => Invalid
            end
      end
  end
with members (n : nat) (s : string) : parsed (list (string * option json.Value) * string) :=
  match n with
  | O => Unmodelled
  | S n =>
      match skip_ws s with
      | String a s' =>
          if decide (a = quote) then
            andThen (string_rest s') (λ '(key, rest),
              match skip_ws rest with
              | String ":" rest =>
                  andThen (value n rest) (λ '(x, rest),
                    match skip_ws rest with
                    | String "}" rest => Ok ([(key, x)], rest)
                    | String "," rest =>
                        andThen (members n rest) (λ '(m, rest), Ok ((key, x) :: m, rest))
                    | _ => Invalid
                    end)
              | _ => Invalid
              end)
          else Invalid
      | "" => Invalid
      end
  end
with elements (n : nat) (s : string) : parsed (list (option json.Value) * string) :=
  match n with
  | O => Unmodelled
  | S n =>
      andThen (value n s) (λ '(x, rest),
        match skip_ws rest with
        | String "]" rest => Ok ([x], rest)
        | String "," rest => andThen (elements n rest) (λ '(l, rest), Ok (x :: l, rest))
        | _ => Invalid
        end)
  end.

(** A whole document: one value, then only white space. *)
Definition document (data : string) : parsed (option json.Value) :=
  andThen (value (S (String.length data)) data) (λ '(x, rest),
    if decide (skip_ws rest = "") then Ok x else Invalid).

Definition lower (a : ascii) : ascii :=
  if is_upper a then Ascii.ascii_of_N (code a + 32) else a.

Fixpoint fold_name (s : string) : string :=
  match s with
  | "" => ""
  | String a s' => String (lower a) (fold_name s')
  end.

Definition unmodelled : exterr := "sample: JSON outside the modelled fragment of encoding/json".

Definition with_failure (d : json.Decoded) (e : exterr) : json.Decoded :=
  {| json.message := json.message d; json.errors := json.errors d;
     json.failure := match json.failure d with
                     | Some e0 => Some e0
                     | None => Some e
                     end;
     json.response := json.response d |}.

(** The value of an integer literal that fits Go's [int]. *)
Fixpoint decimal (acc : Z) (s : string) : Z :=
  match s with
  | "" => acc
  | String a s' => decimal (10 * acc + Z.of_N (code a - 48)) s'
  end.

Definition integer (literal : string) : option Z :=
  let n := match literal with
           | String "-" d => - decimal 0 d
           | _ => decimal 0 literal
           end in
  if decide (- 2 ^ 63 ≤ n ∧ n < 2 ^ 63) then Some n else None.

(** One member of the object that a body member [Response] holds, decoded
    into the response: covered are an integer [StatusCode] and a [Request]
    that is [null]. *)
Definition decode_response_member (kv : string * option json.Value)
  : option (http.Response → http.Response) :=
  let '(key, x) := kv in
  if decide (fold_name key = "statuscode") then
    match x with
    | None => Some id
    | Some (json.VNumber literal) =>
        n ← integer literal;
        Some (λ r, {| http.StatusCode := n; http.Request_of := http.Request_of r;
                      http.Body := http.Body r |})
    | Some _ => None
    end
  else if decide (fold_name key = "request") then
    match x with
    | None => Some (λ r, {| http.StatusCode := http.StatusCode r;
                            http.Request_of := None; http.Body := http.Body r |})
    | Some _ => None
    end
  else None.

(** The members of that object, one after the other. *)
Fixpoint decode_response (m : list (string * option json.Value))
  : option (http.Response → http.Response) :=
  match m with
  | [] => Some id
  | kv :: m =>
      w ← decode_response_member kv;
      ws ← decode_response m;
      Some (λ r, ws (w r))
  end.

(** The decoder between two members: what it has stored, and whether the
    field [Response] of the record is nil by now. *)
Record decoding := mkDecoding { stored : json.Decoded; nil_Response : bool }.

(** One member of the object decoded into the fields of [ErrorResponse]:
    names match without regard to case, unknown names are skipped, and a
    value of the wrong type is reported after the remaining members have
    been stored.  A member [Response] that is [null] sets the field to
    nil; one that is an object is decoded into the response the field
    points to. *)
Definition decode_member (st : decoding) (kv : string * option json.Value) : decoding :=
  let d := stored st in
  let '(key, x) := kv in
  if decide (fold_name key = "message") then
    match x with
    | None => st
    | Some (json.VString m) =>
        {| stored := {| json.message := m; json.errors := json.errors d;
                        json.failure := json.failure d;
                        json.response := json.response d |};
           nil_Response := nil_Response st |}
    | Some _ =>
        {| stored := with_failure d
             "json: cannot unmarshal into Go struct field ErrorResponse.message of type string";
           nil_Response := nil_Response st |}
    end
  else if decide (fold_name key = "errors") then
    {| stored := {| json.message := json.message d; json.errors := x;
                    json.failure := json.failure d;
                    json.response := json.response d |};
       nil_Response := nil_Response st |}
  else if decide (fold_name key = "response") then
    match x with
    | None =>
        {| stored := {| json.message := json.message d; json.errors := json.errors d;
                        json.failure := json.failure d;
                        json.response := λ r, (None, (json.response d r).2) |};
           nil_Response := true |}
    | Some (json.VObject m) =>
        match nil_Response st, decode_response m with
        | false, Some w =>
            {| stored := {| json.message := json.message d;
                            json.errors := json.errors d;
                            json.failure := json.failure d;
                            json.response :=
                              λ r, let r' := w (json.response d r).2 in (Some r', r') |};
               nil_Response := false |}
        | _, _ => {| stored := with_failure d unmodelled; nil_Response := nil_Response st |}
        end
    | Some _ =>
        {| stored := with_failure d
             "json: cannot unmarshal into Go struct field ErrorResponse.Response of type http.Response";
           nil_Response := nil_Response st |}
    end
  else st.

Definition Unmarshal (data : string) : json.Decoded :=
  let zero := {| json.message := ""; json.errors := None; json.failure := None;
                 json.response := json.untouched |} in
  match document data with
  | Ok None => zero
  | Ok (Some (json.VObject m)) =>
      stored (foldl decode_member {| stored := zero; nil_Response := false |} m)
  | Ok (Some _) =>
      with_failure zero
        "json: cannot unmarshal into Go value of type mailerlite.ErrorResponse"
  | Invalid => with_failure zero "invalid character or unexpected end of JSON input"
  | Unmodelled => with_failure zero unmodelled
  end.

(** [Decoder.Decode] into an [interface{}] variable: the next value of the
    stream. *)
Definition Decode (body : io.Reader) (target : option json.Value)
  : option json.Value * io.Reader * option exterr :=
  let '(data, err, body) := io.ReadAll body in
  match err with
  | Some err => (target, body, Some err)
  | None =>
      match value (S (String.length data)) data with
      | Ok (x, _) => (x, body, None)
      | Invalid => (target, body, Some "invalid character or unexpected end of JSON input")
      | Unmodelled => (target, body, Some unmodelled)
      end
  end.

(** Modelled from the spec: the option types of the subscriber resource,
    which the repository declares outside the files at hand.  The tests
    build [ListSubscriberOptions{Filter: &Filter{Name: ..., Value: ...}}];
    the filter is "a single name/value pair" and may be absent. *)
Record Filter := mkFilter { Name : string; Value : string }.
Record ListSubscriberOptions := mkListSubscriberOptions { opt_Filter : option Filter }.

(** The values of the examples: an options struct, or a Go string. *)
Inductive payload :=
| Options (o : ListSubscriberOptions)
| Text (s : string).

(** Modelled from the spec: the serialisation of the options by
    [query.Values].  "A nested Filter field serializes as two synthetic
    keys, Filter[Name] and Filter[Value]"; a nil [Filter] pointer yields the
    key [Filter] with an empty value, which is the key the loop of
    [addOptions] skips.  Anything but a struct is an error. *)
Definition Values (opt : GoValue payload) : url.Values + exterr :=
  match opt with
  | Nil | NilPtr => inl ∅
  | Val (Options o) =>
      match opt_Filter o with
      | Some f =>
          inl (url.Add "Filter[Value]" (Value f) (url.Add "Filter[Name]" (Name f) ∅))
      | None => inl (url.Add "Filter" "" ∅)
      end
  | Val (Text _) => inr "query: Values() expects struct input. Got string"
  end.

(** [json.Marshal]: nil is [null]; a string of letters, digits and blanks is
    itself between quotes; the JSON names of the option fields are not
    known. *)
Definition Marshal (v : GoValue payload) : string + exterr :=
  match v with
  | Nil | NilPtr => inl "null"
  | Val (Text s) =>
      if all_bytes (λ a, is_alnum a || bool_decide (a = " "%char)) s
      then inl (String quote s +:+ String quote "")
      else inr unmodelled
  | Val (Options _) => inr unmodelled
  end.

(** *** net/http, io, strconv *)

Definition is_token (a : ascii) : bool := is_alnum a || is_one_of "!#$%&'*+-.^_`|~" a.

(** [http.NewRequest] for URLs without a port. *)
Definition NewRequest (method url body : string) : http.Request + exterr :=
  let method := if decide (method = "") then "GET" else method in
  if negb (all_bytes is_token method) then inr "net/http: invalid method"
  else
    match Parse url with
    | inr err => inr err
    | inl u =>
        inl {| http.Method := method; http.URL := Some u; http.Header_of := ∅;
               http.ReqBody := body; http.Ctx := context.Background |}
    end.

(** [Close] of an [ioutil.NopCloser], the body of the tests. *)
Definition Close (b : io.Reader) : io.Reader := b.

Fixpoint digits_value (acc : Z) (s : string) : option Z :=
  match s with
  | "" => Some acc
  | String a s' =>
      if is_digit a then digits_value (10 * acc + Z.of_N (code a - 48)) s' else None
  end.

Definition Atoi (s : string) : Z + exterr :=
  let '(neg, d) := match s with
                   | String "-" d => (true, d)
                   | String "+" d => (false, d)
                   | _ => (false, s)
                   end in
  match d, digits_value 0 d with
  | String _ _, Some n =>
      let n := if neg : bool then - n else n in
      if decide (- 2 ^ 63 ≤ n ∧ n < 2 ^ 63) then inl n
      else inr "strconv.Atoi: value out of range"
  | _, _ => inr "strconv.Atoi: invalid syntax"
  end.

(** A transport that fails, and the transport of the tests, which answers
    every request with a given status and body. *)
Definition refused : http.Client :=
  {| http.Do := λ _, inr "dial tcp: connection refused" |}.

Definition RoundTripFunc (status : Z) (body : string) : http.Client :=
  {| http.Do := λ req,
       inl {| http.StatusCode := status; http.Request_of := Some req;
              http.Body := {| io.pending := body; io.fault := None |} |} |}.

(** [http.DefaultClient] is the failing transport: the examples run without
    a network. *)
Definition library : Library :=
  {| Payload := payload;
     Target := option json.Value;
     url_Parse := Parse;
     url_ParseRequestURI := ParseRequestURI;
     url_ParseQuery := ParseQuery;
     Values_Encode := Encode;
     URL_String := URLString;
     json_Unmarshal := Unmarshal;
     json_Marshal := Marshal;
     json_Decode := Decode;
     query_Values := Values;
     http_DefaultClient := refused;
     http_NewRequest := NewRequest;
     Body_Close := Close;
     strconv_Atoi := Atoi |}.

(** *** The data of the tests *)

(** A JSON text written with apostrophes for the double quotes. *)
Fixpoint json_text (s : string) : string :=
  match s with
  | "" => ""
  | String a s' => String (if decide (a = "'"%char) then quote else a) (json_text s')
  end.

Definition invalid_data : string :=
  json_text "{'message':'The given data was invalid.',"
  +:+ LF +:+ json_text "'errors': [{'filter': 'The filter must be an array.'}]}".

Definition unauthenticated : string := json_text "{'message': 'Unauthenticated.'}".

Definition subscribers : string := "https://connect.mailerlite.com/api/subscribers".

Definition subscribers_URL : url.URL :=
  {| url.Scheme := "https"; url.Opaque := ""; url.User := None;
     url.Host := "connect.mailerlite.com"; url.Path := "/api/subscribers";
     url.RawPath := ""; url.ForceQuery := false; url.RawQuery := "";
     url.Fragment := ""; url.RawFragment := "" |}.

(** The request [GET /subscribers] before the headers are set. *)
Definition get_subscribers : http.Request :=
  {| http.Method := "GET"; http.URL := Some subscribers_URL; http.Header_of := ∅;
     http.ReqBody := ""; http.Ctx := context.Background |}.

(** The response of the mock transport of the tests. *)
Definition response (status : Z) (body : string) : http.Response :=
  {| http.StatusCode := status; http.Request_of := Some get_subscribers;
     http.Body := {| io.pending := body; io.fault := None |} |}.

(** The response of a mock transport that sets no request. *)
Definition bare_response (status : Z) (body : string) : http.Response :=
  {| http.StatusCode := status; http.Request_of := None;
     http.Body := {| io.pending := body; io.fault := None |} |}.

(** Bodies with a member for the field [Response] of the error record. *)
Definition Response_401 : string := json_text "{'Response':{'StatusCode':401}}".
Definition response_200 : string := json_text "{'response':{'StatusCode':200}}".
Definition Response_null : string := json_text "{'Response':null}".

(** A response whose body fails to be read after some bytes. *)
Definition broken_response (status : Z) : http.Response :=
  {| http.StatusCode := status; http.Request_of := Some get_subscribers;
     http.Body := {| io.pending := "{"; io.fault := Some "unexpected EOF" |} |}.

Definition status_active : GoValue payload :=
  Val (Options {| opt_Filter := Some {| Name := "status"; Value := "active" |} |}).

Definition no_filter : GoValue payload := Val (Options {| opt_Filter := None |}).

(** The client of the tests: [NewClient] with the API key of the tests. *)
Definition test_client : Client := NewClient (L := library) "valid-api-key".

(** The client of a test after [SetHttpClient] with the mock transport. *)
Definition mock_client (status : Z) (body : string) : Client :=
  SetHttpClient (RoundTripFunc status body) test_client.

Definition canceled : context.Context :=
  {| context.Done := true; context.Err := Some "context canceled" |}.

Definition links (prev next : string) : Links :=
  {| First := subscribers +:+ "?page=1"; Last := subscribers +:+ "?page=2";
     Prev := prev; Next := next |}.

(** The transport of [TestCanMakeMockApiCall]: status 202, a body that is
    no JSON, and no request in the response. *)
Definition accepted : http.Client :=
  {| http.Do := λ _,
       inl {| http.StatusCode := http.StatusAccepted; http.Request_of := None;
              http.Body := {| io.pending := "OK"; io.fault := None |} |} |}.

(** A context past its deadline. *)
Definition expired : context.Context :=
  {| context.Done := true; context.Err := Some "context deadline exceeded" |}.

(** The sample library with a serialiser that, unlike [go-querystring],
    stores an empty slice under [Filter[Name]]. *)
Definition with_empty_slice : Library :=
  {| Payload := payload;
     Target := option json.Value;
     url_Parse := Parse;
     url_ParseRequestURI := ParseRequestURI;
     url_ParseQuery := ParseQuery;
     Values_Encode := Encode;
     URL_String := URLString;
     json_Unmarshal := Unmarshal;
     json_Marshal := Marshal;
     json_Decode := Decode;
     query_Values := λ _, inl {[ "Filter[Name]" := [] ]};
     http_DefaultClient := refused;
     http_NewRequest := NewRequest;
     Body_Close := Close;
     strconv_Atoi := Atoi |}.

(** The body of a list response with one subscriber, cut down to its
    [data] member. *)
Definition one_subscriber : string := json_text "{'data': [{'status': 'active'}]}".

End Sample.

(** ** Vocabulary of the statements *)

(** The statuses that [checkResponse] takes for success. *)
Definition success (status : Z) : Prop := status = 202 ∨ 200 ≤ status ≤ 299.

(** The error variant that goes with a failing status. *)
Definition variant_for (status : Z) (e : ErrorResponse) : error :=
  if decide (status = 401) then AuthError_ptr e else ErrorResponse_ptr e.

(** The error record behind an API error. *)
Definition record_of (err : error) : option ErrorResponse :=
  match err with
  | ErrorResponse_ptr e | AuthError_ptr e => Some e
  | External _ => None
  end.

(** Two verdicts agree on nil versus non-nil and on the variant. *)
Definition same_variant (err1 err2 : option error) : Prop :=
  match err1, err2 with
  | None, None => True
  | Some (ErrorResponse_ptr _), Some (ErrorResponse_ptr _) => True
  | Some (AuthError_ptr _), Some (AuthError_ptr _) => True
  | Some (External _), Some (External _) => True
  | _, _ => False
  end.

(** The keys under which [query.Values] serialises a [Filter] field. *)
Definition raw_key (k : string) : Prop :=
  k = "Filter" ∨ k = "Filter[Name]" ∨ k = "Filter[Value]".

Global Instance raw_key_dec (k : string) : Decision (raw_key k).
Proof. unfold raw_key. apply _. Defined.

(** The key of the filter parameter. *)
Definition filter_param (name : string) : string := "filter[" +:+ name +:+ "]".

(** What an iteration over a map leaves in a variable that is assigned
    [f v[0]] at one key: the old content without the key, a panic on an
    empty slice. *)
Definition assigned (o : option (list string)) (old : string) (f : string → string)
  : option string :=
  match o with
  | None => Some old
  | Some [] => None
  | Some (v0 :: _) => Some (f v0)
  end.

(** The state after the loop of [addOptions], in closed form: the values of
    the options except the raw keys are laid over the values of the URL. *)
Definition loop_result (newValues : url.Values) (st : loopState) : option loopState :=
  key ← assigned (newValues !! "Filter[Name]") (filterKey st) filter_param;
  value ← assigned (newValues !! "Filter[Value]") (filterValue st) id;
  Some {| origValues := filter (λ kv, ¬ raw_key kv.1) newValues ∪ origValues st;
          filterKey := key;
          filterValue := value |}.

(** The body of [r], when the classifier decodes it, has no effect through
    the field [Response] of the error record: the field still points to
    the response, and the response is as the read left it.  A body that is
    not decoded (unreadable, or empty) has no effect anyway. *)
Definition leaves_response {L : Library} (r : http.Response) : Prop :=
  io.fault (http.Body r) = None →
  io.pending (http.Body r) ≠ "" →
  json.response (json_Unmarshal (io.pending (http.Body r)))
    (http.set_Body (io.ReadAll (http.Body r)).2 r)
  = json.untouched (http.set_Body (io.ReadAll (http.Body r)).2 r).

(** * Properties *)

Section Classifier.

Context {L : Library}.

Lemma success_dec (status : Z) : Decision (success status).
Proof. unfold success. apply _. Defined.

Lemma checkResponse_success (r : http.Response) :
  success (http.StatusCode r) → checkResponse r = (None, r).
Proof.
  unfold success, checkResponse, http.StatusAccepted. intros Hs.
  repeat case_decide; try done; lia.
Qed.

(** On a failing status the classifier drains the body and returns the
    variant of the status that the response has after the decoder, around
    one error record. *)
Lemma checkResponse_failure (r : http.Response) :
  ¬ success (http.StatusCode r) →
  ∃ e r',
    checkResponse r = (Some (variant_for (http.StatusCode r') e), r')
    ∧ (io.fault (http.Body r) ≠ None ∨ io.pending (http.Body r) = "" →
       r' = http.set_Body (io.ReadAll (http.Body r)).2 r
       ∧ er_Response e = Some r'
       ∧ Message e = "" ∧ Errors e = None)
    ∧ (io.fault (http.Body r) = None → io.pending (http.Body r) ≠ "" →
       (er_Response e, r')
       = json.response (json_Unmarshal (io.pending (http.Body r)))
           (http.set_Body (io.ReadAll (http.Body r)).2 r)
       ∧ Errors e = json.errors (json_Unmarshal (io.pending (http.Body r)))
       ∧ Message e = match json.failure (json_Unmarshal (io.pending (http.Body r))) with
                     | Some _ => io.pending (http.Body r)
                     | None => json.message (json_Unmarshal (io.pending (http.Body r)))
                     end).
Proof.
  unfold success, checkResponse, variant_for, http.StatusAccepted, http.StatusUnauthorized.
  intros Hs. destruct r as [status req [data err]]; simpl in *.
  do 2 (case_decide; [exfalso; tauto|]).
  destruct (decide (err = None ∧ (0 < String.length data)%nat)) as [[-> Hlen]|Hno].
  - destruct (json.response (json_Unmarshal data) _) as [pointer r'] eqn:Hresp.
    destruct (json.failure (json_Unmarshal data)) eqn:Hf;
      (eexists _, r'; split; [case_decide; reflexivity|]; simpl; split;
       [intros [?| ->]; [done|simpl in Hlen; lia] | by rewrite ?Hf]).
  - eexists _, {| http.StatusCode := status; http.Request_of := req;
                  http.Body := {| io.pending := ""; io.fault := err |} |}.
    simpl. split; [case_decide; reflexivity|]. split; [done|].
    intros -> Hne. exfalso. apply Hno. split; [done|]. destruct data; [done|simpl; lia].
Qed.

(** When the body leaves the response alone, the variant is that of the
    status the response came with, and the record refers to the response
    with its body drained. *)
Lemma checkResponse_kept (r : http.Response) :
  ¬ success (http.StatusCode r) →
  leaves_response r →
  ∃ e, checkResponse r
       = (Some (variant_for (http.StatusCode r) e),
          http.set_Body (io.ReadAll (http.Body r)).2 r)
     ∧ er_Response e = Some (http.set_Body (io.ReadAll (http.Body r)).2 r).
Proof.
  intros Hs Hkept. destruct (checkResponse_failure r Hs) as (e & r' & Hc & Hempty & Hdec).
  destruct (decide (io.fault (http.Body r) = None ∧ io.pending (http.Body r) ≠ ""))
    as [[Hf Hp]|Hno].
  - destruct (Hdec Hf Hp) as (Hresp & _). rewrite (Hkept Hf Hp) in Hresp.
    injection Hresp as He ->. exists e. by rewrite Hc.
  - destruct Hempty as (-> & He & _).
    { destruct (io.fault (http.Body r)); [by left|].
      right. destruct (decide (io.pending (http.Body r) = "")); [done|].
      exfalso. by apply Hno. }
    exists e. by rewrite Hc.
Qed.

(** C1: [checkResponse] returns nil exactly when the status code is 202 or
    lies in 200..299, and a non-nil error for every other status code. *)
Theorem checkResponse_nil_iff_success (r : http.Response) :
  ((checkResponse r).1 = None ↔ success (http.StatusCode r))
  ∧ ((∃ err, (checkResponse r).1 = Some err) ↔ ¬ success (http.StatusCode r)).
Proof.
  destruct (success_dec (http.StatusCode r)) as [Hs|Hs].
  - rewrite (checkResponse_success r Hs). simpl. split; [done|].
    split; [by intros [? ?]|done].
  - destruct (checkResponse_failure r Hs) as (e & r' & -> & _). simpl.
    split; [split; [done|tauto]|]. split; [done|eauto].
Qed.

(** The text of an API error of either variant, when the record refers to
    a response that carries its request. *)
Lemma Error_text (e : ErrorResponse) (resp : http.Response) (req : http.Request) :
  er_Response e = Some resp →
  http.Request_of resp = Some req →
  let text := http.Method req +:+ " " +:+ fmt_v_URL (http.URL req) +:+ ": "
              +:+ pretty (http.StatusCode resp) +:+ " " +:+ Message e in
  Error (ErrorResponse_ptr e) = Some text ∧ Error (AuthError_ptr e) = Some text.
Proof.
  intros Hresp Hreq. simpl. unfold AuthError_Error, ErrorResponse_Error.
  by rewrite Hresp; simpl; rewrite Hreq.
Qed.

(** C2, as the code has it: on a failing response whose body leaves the
    response alone, the classifier returns the authentication variant
    exactly when the status code is 401 and the generic variant for every
    other failing status; when the response carries its request, the text
    of the error is the method, a blank, the URL, a colon and a blank, the
    status code in decimal, a blank and the message. *)
Theorem checkResponse_variant_and_text (r : http.Response) :
  ¬ success (http.StatusCode r) →
  leaves_response r →
  ((∃ e, (checkResponse r).1 = Some (AuthError_ptr e)) ↔ http.StatusCode r = 401)
  ∧ ((∃ e, (checkResponse r).1 = Some (ErrorResponse_ptr e)) ↔ http.StatusCode r ≠ 401)
  ∧ ∀ req, http.Request_of r = Some req →
      ∃ err e, (checkResponse r).1 = Some err ∧ record_of err = Some e
        ∧ Error err
          = Some (http.Method req +:+ " " +:+ fmt_v_URL (http.URL req) +:+ ": "
                  +:+ pretty (http.StatusCode r) +:+ " " +:+ Message e).
Proof.
  intros Hs Hkept. destruct (checkResponse_kept r Hs Hkept) as (e & -> & Hr). simpl.
  unfold variant_for. split; [|split].
  - case_decide; split; try done; [eauto|by intros [? ?]].
  - case_decide; split; try done; [by intros [? ?]|eauto].
  - intros req Hreq.
    destruct (Error_text e _ req Hr Hreq) as [Hg Ha]. simpl in Hg, Ha.
    case_decide; eexists _, e; (split; [reflexivity|split; [reflexivity|done]]).
Qed.

(** C10: on a failing response whose body cannot be read or is empty, the
    classifier returns the variant that goes with the status, never nil and
    never the read error, with an empty message and a nil errors payload. *)
Theorem checkResponse_without_body (r : http.Response) :
  ¬ success (http.StatusCode r) →
  io.fault (http.Body r) ≠ None ∨ io.pending (http.Body r) = "" →
  ∃ e, (checkResponse r).1 = Some (variant_for (http.StatusCode r) e)
     ∧ ((∃ a, variant_for (http.StatusCode r) e = AuthError_ptr a) ↔ http.StatusCode r = 401)
     ∧ ((∃ g, variant_for (http.StatusCode r) e = ErrorResponse_ptr g)
        ↔ http.StatusCode r ≠ 401)
     ∧ Message e = "" ∧ Errors e = None.
Proof.
  intros Hs Hbody.
  destruct (checkResponse_failure r Hs) as (e & r' & -> & Hempty & _).
  destruct (Hempty Hbody) as (-> & _ & Hm & He).
  exists e. simpl. split; [done|]. unfold variant_for.
  split; [|split; [|done]].
  - case_decide; split; try done; [eauto|by intros [? ?]].
  - case_decide; split; try done; [by intros [? ?]|eauto].
Qed.

(** C7, as the code has it: on a response whose body leaves the response
    alone, two calls in succession give the same verdict and the same
    variant, but the first call drains the body, so the error of the second
    call has an empty message and a nil errors payload; the two errors are
    equal exactly when the first one has an empty message and a nil errors
    payload too. *)
Theorem checkResponse_twice (r r1 r2 : http.Response) (err1 err2 : option error) :
  leaves_response r →
  checkResponse r = (err1, r1) →
  checkResponse r1 = (err2, r2) →
  same_variant err1 err2
  ∧ r2 = r1
  ∧ (∀ e2, err2 ≫= record_of = Some e2 → Message e2 = "" ∧ Errors e2 = None)
  ∧ (err2 = err1
     ↔ ∀ e1, err1 ≫= record_of = Some e1 → Message e1 = "" ∧ Errors e1 = None).
Proof.
  intros Hkept H1 H2. destruct (success_dec (http.StatusCode r)) as [Hs|Hs].
  - rewrite (checkResponse_success r Hs) in H1. injection H1 as <- <-.
    rewrite (checkResponse_success r Hs) in H2. injection H2 as <- <-. simpl.
    repeat split; done.
  - destruct (checkResponse_kept r Hs Hkept) as (e1 & E1 & Hr1).
    set (d := http.set_Body (io.ReadAll (http.Body r)).2 r) in *.
    assert (err1 = Some (variant_for (http.StatusCode r) e1)) as -> by congruence.
    assert (r1 = d) as -> by congruence.
    assert (¬ success (http.StatusCode d)) as Hs1 by done.
    destruct (checkResponse_failure d Hs1) as (e2 & r' & E2 & Hempty & _).
    destruct Hempty as (-> & Hr2 & Hm & He); [by right|].
    assert (http.set_Body (io.ReadAll (http.Body d)).2 d = d) as Hfix by done.
    rewrite Hfix in E2, Hr2.
    assert (err2 = Some (variant_for (http.StatusCode d) e2)) as -> by congruence.
    assert (r2 = d) as -> by congruence.
    change (http.StatusCode d) with (http.StatusCode r).
    unfold variant_for. split; [by case_decide|]. split; [done|]. split.
    + intros e. case_decide; simpl; intros; by simplify_eq.
    + destruct e1 as [x1 m1 p1], e2 as [x2 m2 p2]. simpl in *. subst.
      case_decide; simpl; (split;
        [intros; by simplify_eq
        |intros Hz; specialize (Hz _ eq_refl); simpl in Hz; destruct Hz as [-> ->]; done]).
Qed.

End Classifier.

Section Encoder.

Context {L : Library}.

Lemma addOptions_loop_panic (entries : list (string * list string)) :
  foldl addOptions_step None entries = None.
Proof. induction entries as [|kv entries IH]; [done|]. simpl. exact IH. Qed.

Lemma filter_raw_insert (m : url.Values) (k : string) (v : list string) :
  raw_key k → m !! k = None →
  filter (λ kv : string * list string, ¬ raw_key kv.1) (<[k := v]> m)
  = filter (λ kv : string * list string, ¬ raw_key kv.1) m.
Proof.
  intros Hraw Hk. rewrite map_filter_insert_False; [|simpl; tauto].
  by rewrite delete_id.
Qed.

(** The loop computes [loop_result], whatever the order of the entries. *)
Lemma addOptions_loop_closed (entries : list (string * list string)) (st : loopState) :
  NoDup entries.*1 →
  addOptions_loop entries st = loop_result (list_to_map entries) st.
Proof.
  unfold addOptions_loop. revert st.
  induction entries as [|[k v] entries IH]; intros st Hnd.
  - simpl. unfold loop_result. rewrite !lookup_empty. simpl.
    rewrite map_filter_empty, (left_id_L ∅ (∪)). by destruct st.
  - rewrite fmap_cons in Hnd. apply NoDup_cons in Hnd as [Hk Hnd].
    assert ((list_to_map entries : url.Values) !! k = None) as Hnone
      by by apply not_elem_of_list_to_map_1.
    rewrite list_to_map_cons.
    set (m := list_to_map entries : url.Values) in *.
    cbn [foldl addOptions_step mbind option_bind].
    destruct (decide (k = "Filter")) as [->|H1].
    { rewrite IH by done. fold m. unfold loop_result.
      rewrite !(lookup_insert_ne m) by done.
      rewrite filter_raw_insert; [done|unfold raw_key; tauto|done]. }
    destruct (decide (k = "Filter[Name]")) as [->|H2].
    { destruct v as [|v0 v]; cbn [lookup list_lookup mbind option_bind].
      - rewrite addOptions_loop_panic. unfold loop_result.
        by rewrite lookup_insert_eq.
      - rewrite IH by done. fold m. unfold loop_result.
        rewrite lookup_insert_eq, Hnone, (lookup_insert_ne m) by done.
        cbn [assigned mbind option_bind filterKey filterValue origValues].
        rewrite filter_raw_insert; [done|unfold raw_key; tauto|done]. }
    destruct (decide (k = "Filter[Value]")) as [->|H3].
    { destruct v as [|v0 v]; cbn [lookup list_lookup mbind option_bind].
      - rewrite addOptions_loop_panic. unfold loop_result.
        rewrite (lookup_insert_ne m _ "Filter[Name]"), lookup_insert_eq by done.
        by destruct (assigned (m !! "Filter[Name]") _ _).
      - rewrite IH by done. fold m. unfold loop_result.
        rewrite lookup_insert_eq, Hnone, (lookup_insert_ne m) by done.
        cbn [assigned mbind option_bind filterKey filterValue origValues].
        rewrite filter_raw_insert; [done|unfold raw_key; tauto|done]. }
    rewrite IH by done. fold m. unfold loop_result.
    cbn [filterKey filterValue origValues].
    rewrite !(lookup_insert_ne m) by done.
    rewrite map_filter_insert_True by (unfold raw_key; simpl; tauto).
    rewrite <- insert_union_l.
    rewrite <- insert_union_r; [done|].
    apply map_lookup_filter_None. by left.
Qed.

(** The order in which Go visits the entries of [newValues] does not
    matter. *)
Lemma addOptions_loop_order (newValues : url.Values)
    (entries : list (string * list string)) (st : loopState) :
  entries ≡ₚ map_to_list newValues →
  addOptions_loop entries st = addOptions_loop (map_to_list newValues) st.
Proof.
  intros Hperm.
  assert (NoDup entries.*1) as Hnd.
  { rewrite Hperm. apply NoDup_fst_map_to_list. }
  rewrite !addOptions_loop_closed by (done || apply NoDup_fst_map_to_list).
  f_equal. apply list_to_map_proper; done.
Qed.

Lemma filter_param_nonempty (name : string) : filter_param name ≠ "".
Proof. done. Qed.

Lemma filter_param_not_raw (name : string) : ¬ raw_key (filter_param name).
Proof. unfold raw_key, filter_param. intros [?|[?|?]]; done. Qed.

Lemma lookup_Add (key value : string) (v : url.Values) (k : string) :
  url.Add key value v !! k
  = if decide (key = k) then Some (default [] (v !! key) ++ [value])%list else v !! k.
Proof. unfold url.Add. by rewrite lookup_insert. Qed.

(** The values of the options, without the raw keys, laid over the values
    of the URL, key by key. *)
Lemma lookup_overlay (newValues orig : url.Values) (k : string) :
  (filter (λ kv : string * list string, ¬ raw_key kv.1) newValues ∪ orig) !! k
  = if decide (raw_key k) then orig !! k else (newValues ∪ orig) !! k.
Proof.
  rewrite !lookup_union. case_decide as Hk.
  - rewrite (proj2 (map_lookup_filter_None _ _ _)); [by rewrite (left_id_L None _)|].
    right. intros x _. simpl. tauto.
  - destruct (newValues !! k) as [x|] eqn:Hx.
    + by rewrite (map_lookup_filter_Some_2 _ _ _ x).
    + rewrite (proj2 (map_lookup_filter_None _ _ _)); [done|by left].
Qed.

(** With a filter among the options, the loop and the [Add] lay the other
    option values over those of the URL and append the filter value. *)
Lemma addOptions_values_filter (orig newValues : url.Values)
    (name value : string) (names values : list string) :
  newValues !! "Filter[Name]" = Some (name :: names) →
  newValues !! "Filter[Value]" = Some (value :: values) →
  addOptions_values orig newValues
  = Some (url.Add (filter_param name) value
            (filter (λ kv : string * list string, ¬ raw_key kv.1) newValues ∪ orig)).
Proof.
  intros Hn Hv. unfold addOptions_values.
  rewrite addOptions_loop_closed by apply NoDup_fst_map_to_list.
  rewrite list_to_map_to_list. unfold loop_result. rewrite Hn, Hv.
  cbn [assigned mbind option_bind filterKey filterValue origValues id].
  by rewrite decide_True by apply filter_param_nonempty.
Qed.

(** Without a filter among the options nothing is appended. *)
Lemma addOptions_values_no_filter (orig newValues : url.Values) :
  newValues !! "Filter[Name]" = None →
  newValues !! "Filter[Value]" = None →
  addOptions_values orig newValues
  = Some (filter (λ kv : string * list string, ¬ raw_key kv.1) newValues ∪ orig).
Proof.
  intros Hn Hv. unfold addOptions_values.
  rewrite addOptions_loop_closed by apply NoDup_fst_map_to_list.
  rewrite list_to_map_to_list. unfold loop_result. rewrite Hn, Hv.
  cbn [assigned mbind option_bind filterKey filterValue origValues id].
  by rewrite decide_False by (intros Hne; by apply Hne).
Qed.

(** C3, as the code has it: when the base URL parses and the options
    serialise with a filter of name [N] and value [V], the values encoded
    into the output have the key [filter[N]] with [V] appended to the values
    the key had in the base URL or among the other option values (so with
    the single value [V] when it had none), and have a raw key [Filter],
    [Filter[Name]] or [Filter[Value]] exactly as the base URL had it; when
    the options serialise without a filter, no key is added, so a key
    [filter[...]] is in the output only if the base URL or another option
    value supplies it. *)
Theorem addOptions_filter (s : string) (opt : GoValue Payload) (u : url.URL)
    (newValues : url.Values) :
  is_nil_ptr opt = false →
  url_Parse s = inl u →
  query_Values opt = inl newValues →
  (∀ N V,
     newValues !! "Filter[Name]" = Some [N] →
     newValues !! "Filter[Value]" = Some [V] →
     ∃ values,
       addOptions s opt
       = Some (URL_String (url.set_RawQuery (Values_Encode values) u), None)
       ∧ values !! filter_param N
         = Some (default [] ((newValues ∪ URL_Query u) !! filter_param N) ++ [V])%list
       ∧ (URL_Query u !! filter_param N = None → newValues !! filter_param N = None →
          values !! filter_param N = Some [V])
       ∧ (∀ k, raw_key k → values !! k = URL_Query u !! k)
       ∧ (∀ k, ¬ raw_key k → k ≠ filter_param N →
          values !! k = (newValues ∪ URL_Query u) !! k))
  ∧ (newValues !! "Filter[Name]" = None →
     newValues !! "Filter[Value]" = None →
     ∃ values,
       addOptions s opt
       = Some (URL_String (url.set_RawQuery (Values_Encode values) u), None)
       ∧ (∀ k, raw_key k → values !! k = URL_Query u !! k)
       ∧ (∀ k, ¬ raw_key k → values !! k = (newValues ∪ URL_Query u) !! k)).
Proof.
  intros Hopt Hu Hnv. unfold addOptions. rewrite Hopt, Hu, Hnv. split.
  - intros N V HN HV. rewrite (addOptions_values_filter _ _ _ _ _ _ HN HV).
    eexists. split; [reflexivity|].
    assert (∀ k, url.Add (filter_param N) V
                   (filter (λ kv : string * list string, ¬ raw_key kv.1) newValues
                    ∪ URL_Query u) !! k
                 = if decide (filter_param N = k)
                   then Some (default [] ((newValues ∪ URL_Query u) !! filter_param N)
                              ++ [V])%list
                   else if decide (raw_key k) then URL_Query u !! k
                        else (newValues ∪ URL_Query u) !! k) as Hlook.
    { intros k. rewrite lookup_Add, !lookup_overlay.
      by rewrite (decide_False (P := raw_key (filter_param N)))
        by apply filter_param_not_raw. }
    split; [|split; [|split]].
    + by rewrite Hlook, decide_True.
    + intros Hbase Hopts. rewrite Hlook, decide_True by done.
      by rewrite lookup_union, Hbase, Hopts.
    + intros k Hk. rewrite Hlook, decide_False, decide_True; [done..|].
      intros <-. by apply (filter_param_not_raw N).
    + intros k Hk Hne. by rewrite Hlook, !decide_False.
  - intros HN HV. rewrite (addOptions_values_no_filter _ _ HN HV).
    eexists. split; [reflexivity|]. split.
    + intros k Hk. by rewrite lookup_overlay, decide_True.
    + intros k Hk. by rewrite lookup_overlay, decide_False.
Qed.

(** C8: with a nil pointer for options the encoder returns the base URL
    string as it is, with no error, whatever the string: the URL is not
    even parsed. *)
Theorem addOptions_nil_pointer (s : string) (opt : GoValue Payload) :
  is_nil_ptr opt = true → addOptions s opt = Some (s, None).
Proof. intros Hopt. unfold addOptions. by rewrite Hopt. Qed.

(** Both failures of the encoder return the base URL string as it is. *)
Lemma addOptions_error (s s' : string) (opt : GoValue Payload) (err : error) :
  addOptions s opt = Some (s', Some err) → s' = s.
Proof.
  unfold addOptions. destruct (is_nil_ptr opt); [congruence|].
  destruct (url_Parse s); [|congruence].
  destruct (query_Values opt); [|congruence].
  destruct (addOptions_values _ _); simpl; congruence.
Qed.

End Encoder.

Section Builder.

Context {L : Library}.

Lemma set_headers_ReqBody (c : Client) (req : http.Request) :
  http.ReqBody (set_headers c req) = http.ReqBody req.
Proof. reflexivity. Qed.

Lemma append_LF_nonempty (b : string) : b +:+ LF ≠ "".
Proof. by destruct b. Qed.

Lemma newRequest_GET (c : Client) (path : string) (body : GoValue Payload) :
  newRequest c http.MethodGet path body
  = '(reqURL, _) ← addOptions (apiBase c +:+ path) body;
    Some (newRequest_send c http.MethodGet reqURL "").
Proof.
  unfold newRequest.
  rewrite decide_False by (unfold http.MethodGet; intros [?|[?|?]]; done).
  by rewrite decide_True.
Qed.

(** C5: when the option encoder fails on a GET request, [newRequest]
    drops the encoder's error and goes on with the base URL and path as
    they are: the outcome is that of [http.NewRequest] on the unmodified
    URL, the same as with no options at all, and any error returned is the
    one of [http.NewRequest]. *)
Theorem newRequest_GET_encoder_failure (c : Client) (path : string)
    (body : GoValue Payload) (reqURL : string) (err : error) :
  addOptions (apiBase c +:+ path) body = Some (reqURL, Some err) →
  reqURL = apiBase c +:+ path
  ∧ newRequest c http.MethodGet path body
    = Some (newRequest_send c http.MethodGet (apiBase c +:+ path) "")
  ∧ newRequest c http.MethodGet path body = newRequest c http.MethodGet path NilPtr
  ∧ (∀ req, http_NewRequest http.MethodGet (apiBase c +:+ path) "" = inl req →
       newRequest c http.MethodGet path body = Some (Some (set_headers c req), None))
  ∧ (∀ req e, newRequest c http.MethodGet path body = Some (req, Some e) →
       req = None
       ∧ ∃ e', http_NewRequest http.MethodGet (apiBase c +:+ path) "" = inr e'
               ∧ e = External e').
Proof.
  intros Henc. pose proof (addOptions_error _ _ _ _ Henc) as ->.
  assert (newRequest c http.MethodGet path body
          = Some (newRequest_send c http.MethodGet (apiBase c +:+ path) "")) as Hnew.
  { by rewrite newRequest_GET, Henc. }
  split; [done|]. split; [done|]. split; [|split].
  - by rewrite Hnew, newRequest_GET.
  - intros req Hreq. rewrite Hnew. unfold newRequest_send. by rewrite Hreq.
  - intros req e. rewrite Hnew. unfold newRequest_send.
    destruct (http_NewRequest _ _ _) as [r|e']; intros; simplify_eq; eauto.
Qed.

(** C9: a request built with POST, PUT or DELETE has for body the JSON
    encoding of the payload followed by a newline; for a nil payload these
    are the five bytes of [null] and the newline; the body is never empty.
    [http.NewRequest] is taken to hand on the body it is given, and
    [json.Marshal] to encode nil as [null]. *)
Theorem newRequest_mutating_body (c : Client) (method path : string)
    (body : GoValue Payload) (req : http.Request) :
  (∀ m u b r, http_NewRequest m u b = inl r → http.ReqBody r = b) →
  json_Marshal Nil = inl "null" →
  method = http.MethodPost ∨ method = http.MethodPut ∨ method = http.MethodDelete →
  newRequest c method path body = Some (Some req, None) →
  (∃ enc, json_Marshal body = inl enc ∧ http.ReqBody req = enc +:+ LF)
  ∧ (body = Nil →
     http.ReqBody req = "null" +:+ LF ∧ String.length (http.ReqBody req) = 5%nat)
  ∧ http.ReqBody req ≠ "".
Proof.
  intros Hbody Hnil Hmethod. unfold newRequest. rewrite decide_True by done.
  unfold json_Encode, newRequest_send.
  destruct (json_Marshal body) as [enc|e] eqn:Henc; [|done].
  destruct (http_NewRequest _ _ _) as [r|e] eqn:Hreq; [|done].
  intros [= <-]. rewrite set_headers_ReqBody, (Hbody _ _ _ _ Hreq).
  change ("" +:+ enc +:+ LF) with (enc +:+ LF).
  split; [eauto|]. split; [|apply append_LF_nonempty].
  intros ->. rewrite Hnil in Henc. by injection Henc as <-.
Qed.

End Builder.

Section Executor.

Context {L : Library}.

(** C4: when the transport returns an error, the executor returns no
    response; the error is what the context's [Err] gives when the context
    is done, and the transport's error when it is not. *)
Theorem do_transport_failure (c : Client) (ctx : context.Context)
    (req : http.Request) (v : option Target) (err : exterr) :
  http.Do (client c) (http.WithContext ctx req) = inr err →
  (context.Done ctx = true →
   do c ctx req v = (None, External <$> context.Err ctx, v))
  ∧ (context.Done ctx = false →
     do c ctx req v = (None, Some (External err), v)).
Proof.
  intros Hdo. unfold do. rewrite Hdo. split; intros ->; reflexivity.
Qed.

End Executor.

Section Cursor.

Context {L : Library}.

Lemma Get_absent (v : url.Values) (key : string) : v !! key = None → url.Get v key = "".
Proof. unfold url.Get. by intros ->. Qed.

(** The token of a link that is not empty. *)
Lemma pageTokenFromURL_cases (urlText : string) :
  match url_ParseRequestURI urlText with
  | inl u => pageTokenFromURL urlText = (url.Get (URL_Query u) "page_token", None)
  | inr err => pageTokenFromURL urlText = ("", Some (External err))
  end.
Proof. unfold pageTokenFromURL. by destruct (url_ParseRequestURI urlText). Qed.

(** C6: [NextPageToken] returns the empty token and no error when the
    links object is nil or its [next] field is empty; otherwise it parses
    [next] and returns the first value of the query parameter [page_token],
    empty when the parameter is absent, with no error; it returns an error,
    with the empty token, exactly when [next] is not empty and does not
    parse.  [PrevPageToken] does the same on [prev]. *)
Theorem PageToken_cases (l : option Links) :
  ((l = None ∨ (∃ x, l = Some x ∧ Next x = "")) → NextPageToken l = ("", None))
  ∧ (∀ x, l = Some x → Next x ≠ "" →
       match url_ParseRequestURI (Next x) with
       | inl u =>
           NextPageToken l = (url.Get (URL_Query u) "page_token", None)
           ∧ (URL_Query u !! "page_token" = None → NextPageToken l = ("", None))
       | inr err => NextPageToken l = ("", Some (External err))
       end)
  ∧ ((∃ e, (NextPageToken l).2 = Some e)
     ↔ ∃ x err, l = Some x ∧ Next x ≠ "" ∧ url_ParseRequestURI (Next x) = inr err)
  ∧ ((l = None ∨ (∃ x, l = Some x ∧ Prev x = "")) → PrevPageToken l = ("", None))
  ∧ (∀ x, l = Some x → Prev x ≠ "" →
       match url_ParseRequestURI (Prev x) with
       | inl u =>
           PrevPageToken l = (url.Get (URL_Query u) "page_token", None)
           ∧ (URL_Query u !! "page_token" = None → PrevPageToken l = ("", None))
       | inr err => PrevPageToken l = ("", Some (External err))
       end)
  ∧ ((∃ e, (PrevPageToken l).2 = Some e)
     ↔ ∃ x err, l = Some x ∧ Prev x ≠ "" ∧ url_ParseRequestURI (Prev x) = inr err).
Proof.
  unfold NextPageToken, PrevPageToken, nextPageToken, prevPageToken.
  repeat split.
  - intros [->|(x & -> & Hx)]; [done|]. by rewrite decide_True.
  - intros x -> Hx. rewrite decide_False by done.
    pose proof (pageTokenFromURL_cases (Next x)) as Hc.
    destruct (url_ParseRequestURI (Next x)) as [u|err]; rewrite Hc; [|done].
    split; [done|]. intros Habs. by rewrite (Get_absent _ _ Habs).
  - intros [e He]. destruct l as [x|]; [|done]. case_decide as Hx; [done|].
    pose proof (pageTokenFromURL_cases (Next x)) as Hc.
    destruct (url_ParseRequestURI (Next x)) as [u|err] eqn:Hp; rewrite Hc in He; [done|].
    eauto.
  - intros (x & err & -> & Hx & Hp). rewrite decide_False by done.
    pose proof (pageTokenFromURL_cases (Next x)) as Hc. rewrite Hp in Hc.
    rewrite Hc. eauto.
  - intros [->|(x & -> & Hx)]; [done|]. by rewrite decide_True.
  - intros x -> Hx. rewrite decide_False by done.
    pose proof (pageTokenFromURL_cases (Prev x)) as Hc.
    destruct (url_ParseRequestURI (Prev x)) as [u|err]; rewrite Hc; [|done].
    split; [done|]. intros Habs. by rewrite (Get_absent _ _ Habs).
  - intros [e He]. destruct l as [x|]; [|done]. case_decide as Hx; [done|].
    pose proof (pageTokenFromURL_cases (Prev x)) as Hc.
    destruct (url_ParseRequestURI (Prev x)) as [u|err] eqn:Hp; rewrite Hc in He; [done|].
    eauto.
  - intros (x & err & -> & Hx & Hp). rewrite decide_False by done.
    pose proof (pageTokenFromURL_cases (Prev x)) as Hc. rewrite Hp in Hc.
    rewrite Hc. eauto.
Qed.

End Cursor.

(** * The pipeline on the data of the tests *)

Section Tests.

Import Sample.
Existing Instance library.

(** [TestWillHandleAPIError]. *)
Example test_api_error :
  ∃ e, (checkResponse (response 400 invalid_data)).1 = Some (ErrorResponse_ptr e)
     ∧ Error (ErrorResponse_ptr e)
       = Some "GET https://connect.mailerlite.com/api/subscribers: 400 The given data was invalid.".
Proof. eexists. split; vm_compute; reflexivity. Qed.

(** [TestWillHandleAPIAuthError]. *)
Example test_auth_error :
  ∃ e, (checkResponse (response 401 unauthenticated)).1 = Some (AuthError_ptr e)
     ∧ Error (AuthError_ptr e)
       = Some "GET https://connect.mailerlite.com/api/subscribers: 401 Unauthenticated.".
Proof. eexists. split; vm_compute; reflexivity. Qed.

(** [TestWillHandleAPIError] from the request to the error: the list
    request goes through the mock transport, the response is returned next
    to the error. *)
Example test_api_error_do :
  ∃ req resp e,
    newRequest test_client "GET" "/subscribers" no_filter = Some (Some req, None)
    ∧ do (mock_client 400 invalid_data) context.Background req None
      = (Some resp, Some (ErrorResponse_ptr e), None)
    ∧ http.StatusCode (embedded resp) = 400
    ∧ Error (ErrorResponse_ptr e)
      = Some "GET https://connect.mailerlite.com/api/subscribers: 400 The given data was invalid.".
Proof. do 3 eexists. repeat split; vm_compute; reflexivity. Qed.

(** [TestCanMakeMockApiCall]: the URL of a list request without filter. *)
Example test_request_URL :
  ∃ req, newRequest test_client "GET" "/subscribers" no_filter
         = Some (Some req, None)
       ∧ URLString <$> http.URL req = Some subscribers.
Proof. eexists. split; vm_compute; reflexivity. Qed.

(** [TestWillHandleAPIFilters]: the URL of a list request with a filter. *)
Example test_filter_URL :
  addOptions subscribers status_active
  = Some (subscribers +:+ "?filter%5Bstatus%5D=active", None).
Proof. vm_compute. reflexivity. Qed.

(** A path with a control character: the encoder fails, [newRequest]
    drops that error, and [http.NewRequest] fails on its own parse of the
    same URL. *)
Example test_malformed_path :
  addOptions (subscribers +:+ LF) no_filter
  = Some (subscribers +:+ LF, Some (External "net/url: invalid control character in URL"))
  ∧ newRequest test_client "GET" ("/subscribers" +:+ LF) no_filter
    = Some (None, Some (External "net/url: invalid control character in URL")).
Proof. split; vm_compute; reflexivity. Qed.

(** The example of the specification for the cursor. *)
Example test_next_token :
  NextPageToken (Some (links "" (subscribers +:+ "?page=2&page_token=abc"))) = ("abc", None)
  ∧ NextPageToken (Some (links "" "")) = ("", None)
  ∧ IsLastPage (Some (links "" "")) = Some true.
Proof. repeat split; vm_compute; reflexivity. Qed.

(** A nil pointer and a nil interface are different options: the first
    leaves a URL that does not parse alone, the second reports it. *)
Example test_nil_options :
  addOptions (subscribers +:+ LF) NilPtr = Some (subscribers +:+ LF, None)
  ∧ addOptions (subscribers +:+ LF) Nil
    = Some (subscribers +:+ LF,
            Some (External "net/url: invalid control character in URL")).
Proof. split; vm_compute; reflexivity. Qed.

End Tests.

(** * Instances of the theorems on the sample library *)

(** C2 fails as stated.  A failing response that carries no request has an
    error of the right variant whose [Error] panics.  And a body with a
    member [Response] is decoded into the response: a 400 with the status
    code 401 in that member comes back as the authentication variant, with
    401 in its text. *)
Lemma checkResponse_variant_and_text_fails :
  (∃ e, (checkResponse (L := Sample.library)
           (Sample.bare_response 404 Sample.unauthenticated)).1
        = Some (ErrorResponse_ptr e)
      ∧ Error (L := Sample.library) (ErrorResponse_ptr e) = None)
  ∧ ∃ e, (checkResponse (L := Sample.library)
            (Sample.response 400 Sample.Response_401)).1 = Some (AuthError_ptr e)
       ∧ Error (L := Sample.library) (AuthError_ptr e)
         = Some "GET https://connect.mailerlite.com/api/subscribers: 401 ".
Proof. split; eexists; split; vm_compute; reflexivity. Qed.

(** Instance of C2 as the code has it: the 401 response of the tests gives
    the authentication variant and its text. *)
Lemma checkResponse_variant_and_text_401 :
  (∃ e, (checkResponse (L := Sample.library)
           (Sample.response 401 Sample.unauthenticated)).1 = Some (AuthError_ptr e))
  ∧ ∃ err e,
      (checkResponse (L := Sample.library)
         (Sample.response 401 Sample.unauthenticated)).1 = Some err
      ∧ record_of err = Some e
      ∧ Error (L := Sample.library) err
        = Some ("GET " +:+ Sample.subscribers +:+ ": " +:+ "401" +:+ " " +:+ Message e).
Proof.
  assert (¬ success 401) as Hs by (unfold success; lia).
  assert (leaves_response (L := Sample.library)
            (Sample.response 401 Sample.unauthenticated)) as Hkept
    by (intros _ _; vm_compute; reflexivity).
  destruct (checkResponse_variant_and_text (L := Sample.library)
              (Sample.response 401 Sample.unauthenticated) Hs Hkept)
    as (Hauth & _ & Htext).
  split.
  - apply Hauth. reflexivity.
  - apply (Htext Sample.get_subscribers). reflexivity.
Defined.

(** Instance of C10: a 500 response whose body breaks off. *)
Lemma checkResponse_without_body_500 :
  ∃ e, (checkResponse (L := Sample.library) (Sample.broken_response 500)).1
       = Some (ErrorResponse_ptr e)
     ∧ Message e = "" ∧ Errors e = None.
Proof.
  assert (¬ success 500) as Hs by (unfold success; lia).
  destruct (checkResponse_without_body (L := Sample.library)
              (Sample.broken_response 500) Hs) as (e & He & _ & _ & Hm & Herr).
  - left. discriminate.
  - exists e. split; [exact He|]. split; assumption.
Defined.

(** C7 fails as stated: on the 401 response of the tests the first call
    reports the message of the body, the second call an empty message. *)
Lemma checkResponse_twice_loses_message :
  ∃ e1 e2 r1 r2,
    checkResponse (L := Sample.library) (Sample.response 401 Sample.unauthenticated)
    = (Some (AuthError_ptr e1), r1)
    ∧ checkResponse (L := Sample.library) r1 = (Some (AuthError_ptr e2), r2)
    ∧ Message e1 = "Unauthenticated."
    ∧ Message e2 = "".
Proof. do 4 eexists. repeat split; vm_compute; reflexivity. Qed.

(** Instance of C7 as the code has it, on the same response. *)
Lemma checkResponse_twice_401 :
  let first := checkResponse (L := Sample.library)
                 (Sample.response 401 Sample.unauthenticated) in
  let second := checkResponse (L := Sample.library) first.2 in
  same_variant first.1 second.1
  ∧ second.2 = first.2
  ∧ ∀ e2, second.1 ≫= record_of = Some e2 → Message e2 = "" ∧ Errors e2 = None.
Proof.
  intros first second.
  destruct (checkResponse_twice (L := Sample.library)
              (Sample.response 401 Sample.unauthenticated)
              first.2 second.2 first.1 second.1)
    as (Hsame & Hstate & Hempty & _).
  - intros _ _. vm_compute. reflexivity.
  - vm_compute. reflexivity.
  - vm_compute. reflexivity.
  - split; [exact Hsame|]. split; [exact Hstate|exact Hempty].
Defined.

(** C3 fails as stated: a raw key in the query of the base URL stays in the
    output, next to the filter parameter; a filter parameter that the base
    URL has already gets a second value; and a base URL that does not parse
    comes back as it is, without any filter parameter. *)
Lemma addOptions_keeps_raw_key_of_URL :
  (∃ u newValues values,
     Sample.Parse (Sample.subscribers +:+ "?Filter=x") = inl u
     ∧ Sample.Values Sample.status_active = inl newValues
     ∧ newValues !! "Filter[Name]" = Some ["status"]
     ∧ newValues !! "Filter[Value]" = Some ["active"]
     ∧ addOptions_values (Sample.ParseQuery (url.RawQuery u)) newValues = Some values
     ∧ values !! "Filter" = Some ["x"]
     ∧ addOptions (L := Sample.library) (Sample.subscribers +:+ "?Filter=x")
         Sample.status_active
       = Some (Sample.subscribers +:+ "?Filter=x&filter%5Bstatus%5D=active", None))
  ∧ addOptions (L := Sample.library) (Sample.subscribers +:+ "?filter%5Bstatus%5D=new")
      Sample.status_active
    = Some (Sample.subscribers +:+ "?filter%5Bstatus%5D=new&filter%5Bstatus%5D=active",
            None)
  ∧ addOptions (L := Sample.library) (Sample.subscribers +:+ LF) Sample.status_active
    = Some (Sample.subscribers +:+ LF,
            Some (External "net/url: invalid control character in URL")).
Proof.
  split; [do 3 eexists|]; repeat split; vm_compute; reflexivity.
Qed.

(** Instance of C3 as the code has it: the list request of the tests. *)
Lemma addOptions_filter_status_active :
  ∃ values,
    addOptions (L := Sample.library) Sample.subscribers Sample.status_active
    = Some (Sample.URLString
              (url.set_RawQuery (Sample.Encode values) Sample.subscribers_URL), None)
    ∧ values !! "filter[status]" = Some ["active"]
    ∧ values !! "Filter" = None
    ∧ values !! "Filter[Name]" = None
    ∧ values !! "Filter[Value]" = None.
Proof.
  destruct (addOptions_filter (L := Sample.library) Sample.subscribers
              Sample.status_active Sample.subscribers_URL
              (url.Add "Filter[Value]" "active" (url.Add "Filter[Name]" "status" ∅)))
    as [Hfilter _].
  - reflexivity.
  - vm_compute. reflexivity.
  - reflexivity.
  - destruct (Hfilter "status" "active") as (values & Hout & _ & Hone & Hraw & _).
    + vm_compute. reflexivity.
    + vm_compute. reflexivity.
    + exists values. split; [exact Hout|]. split.
      * apply Hone; vm_compute; reflexivity.
      * split; [|split]; (rewrite Hraw; [vm_compute; reflexivity|unfold raw_key; tauto]).
Defined.

(** Instance of C8: a URL with a control character is returned as it is. *)
Lemma addOptions_nil_pointer_control_character :
  Sample.Parse (Sample.subscribers +:+ LF) = inr "net/url: invalid control character in URL"
  ∧ addOptions (L := Sample.library) (Sample.subscribers +:+ LF) NilPtr
    = Some (Sample.subscribers +:+ LF, None).
Proof.
  split.
  - vm_compute. reflexivity.
  - apply (addOptions_nil_pointer (L := Sample.library)). reflexivity.
Defined.

(** Instance of C5: a Go string for options makes the encoder fail; the
    request is built for the URL without query. *)
Lemma newRequest_GET_encoder_failure_text :
  addOptions (L := Sample.library) Sample.subscribers (Val (Sample.Text "active"))
  = Some (Sample.subscribers,
          Some (External "query: Values() expects struct input. Got string"))
  ∧ ∃ req,
      newRequest (L := Sample.library) Sample.test_client
        "GET" "/subscribers" (Val (Sample.Text "active"))
      = Some (Some req, None)
      ∧ http.URL req = Some Sample.subscribers_URL.
Proof.
  assert (addOptions (L := Sample.library)
            (apiBase Sample.test_client +:+ "/subscribers")
            (Val (Sample.Text "active"))
          = Some (Sample.subscribers,
                  Some (External "query: Values() expects struct input. Got string")))
    as Henc by (vm_compute; reflexivity).
  split; [exact Henc|].
  destruct (newRequest_GET_encoder_failure (L := Sample.library) _ _ _ _ _ Henc)
    as (_ & _ & _ & Hbuilt & _).
  eexists. split.
  - apply Hbuilt. vm_compute. reflexivity.
  - reflexivity.
Defined.

(** The sample [http.NewRequest] hands on the body it is given. *)
Lemma Sample_NewRequest_body (m u b : string) (r : http.Request) :
  Sample.NewRequest m u b = inl r → http.ReqBody r = b.
Proof.
  unfold Sample.NewRequest.
  destruct (negb _); [discriminate|].
  destruct (Sample.Parse u); [|discriminate].
  intros [= <-]. reflexivity.
Defined.

(** Instance of C9: a POST without payload carries [null] and a newline. *)
Lemma newRequest_mutating_body_nil :
  ∃ req,
    newRequest (L := Sample.library) Sample.test_client
      "POST" "/subscribers" Nil
    = Some (Some req, None)
    ∧ http.ReqBody req = "null" +:+ LF
    ∧ String.length (http.ReqBody req) = 5%nat.
Proof.
  destruct (newRequest (L := Sample.library)
              Sample.test_client "POST" "/subscribers" Nil)
    as [[[req|] [e|]]|] eqn:Hreq; try (vm_compute in Hreq; discriminate).
  exists req. split; [reflexivity|].
  apply (newRequest_mutating_body (L := Sample.library)
           Sample.test_client "POST" "/subscribers" Nil req).
  - exact Sample_NewRequest_body.
  - reflexivity.
  - left. reflexivity.
  - exact Hreq.
  - reflexivity.
Defined.

(** Instance of C4: the transport refuses the connection. *)
Lemma do_transport_failure_refused :
  do (L := Sample.library) Sample.test_client
    Sample.canceled Sample.get_subscribers None
  = (None, Some (External "context canceled"), None)
  ∧ do (L := Sample.library) Sample.test_client
      context.Background Sample.get_subscribers None
    = (None, Some (External "dial tcp: connection refused"), None).
Proof.
  split.
  - apply (do_transport_failure (L := Sample.library)
             Sample.test_client Sample.canceled
             Sample.get_subscribers None "dial tcp: connection refused");
      reflexivity.
  - apply (do_transport_failure (L := Sample.library)
             Sample.test_client context.Background
             Sample.get_subscribers None "dial tcp: connection refused");
      reflexivity.
Defined.

(** Instance of C6: the link of the example of the specification, and a
    link with a control character. *)
Lemma PageToken_cases_links :
  NextPageToken (L := Sample.library)
    (Some (Sample.links "" (Sample.subscribers +:+ "?page=2&page_token=abc")))
  = ("abc", None)
  ∧ PrevPageToken (L := Sample.library)
      (Some (Sample.links "" (Sample.subscribers +:+ "?page=2&page_token=abc")))
    = ("", None)
  ∧ ∃ e, (NextPageToken (L := Sample.library)
            (Some (Sample.links "" (Sample.subscribers +:+ LF)))).2 = Some e.
Proof.
  split; [|split].
  - destruct (PageToken_cases (L := Sample.library)
                (Some (Sample.links "" (Sample.subscribers +:+ "?page=2&page_token=abc"))))
      as (_ & Hnext & _).
    specialize (Hnext _ eq_refl).
    apply Hnext. discriminate.
  - destruct (PageToken_cases (L := Sample.library)
                (Some (Sample.links "" (Sample.subscribers +:+ "?page=2&page_token=abc"))))
      as (_ & _ & _ & Hprev & _).
    apply Hprev. right. eexists. split; reflexivity.
  - destruct (PageToken_cases (L := Sample.library)
                (Some (Sample.links "" (Sample.subscribers +:+ LF))))
      as (_ & _ & Herr & _).
    apply Herr. eexists _, _. split; [reflexivity|]. split; [discriminate|].
    vm_compute. reflexivity.
Defined.

(** * Further properties of the classifier *)

Section ClassifierMore.

Context {L : Library}.

(** X1: on a failing response whose body is read without error and is not
    empty, the errors payload is what the JSON decoder stored; the message
    is the decoded one when the decoder accepts the body, and the body text
    as it is when the decoder rejects it. *)
Theorem checkResponse_message (r : http.Response) (data : string) :
  ¬ success (http.StatusCode r) →
  io.fault (http.Body r) = None →
  io.pending (http.Body r) = data →
  data ≠ "" →
  ∃ e, (checkResponse r).1 ≫= record_of = Some e
     ∧ Errors e = json.errors (json_Unmarshal data)
     ∧ (json.failure (json_Unmarshal data) = None →
        Message e = json.message (json_Unmarshal data))
     ∧ (json.failure (json_Unmarshal data) ≠ None → Message e = data).
Proof.
  intros Hs Hfault <- Hdata.
  destruct (checkResponse_failure r Hs) as (e & r' & -> & _ & Hdec).
  destruct (Hdec Hfault Hdata) as (_ & He & Hm).
  exists e. split; [unfold variant_for; by case_decide|]. split; [done|].
  rewrite Hm. split; [by intros ->|].
  by destruct (json.failure _).
Qed.

(** X2: on a success status the classifier returns the response as it
    got it, the body unread.  On any other status the variant of the error
    is that of the status code the response has when the classifier
    returns.  When the body leaves the response alone, the response keeps
    its status code and its request, its body is drained (nothing left to
    read, the read fault as before), and the error record refers to the
    response in that state. *)
Theorem checkResponse_state (r : http.Response) :
  (success (http.StatusCode r) → (checkResponse r).2 = r)
  ∧ (¬ success (http.StatusCode r) →
     ∃ e, (checkResponse r).1
          = Some (variant_for (http.StatusCode (checkResponse r).2) e))
  ∧ (¬ success (http.StatusCode r) →
     leaves_response r →
     http.StatusCode (checkResponse r).2 = http.StatusCode r
     ∧ http.Request_of (checkResponse r).2 = http.Request_of r
     ∧ io.pending (http.Body (checkResponse r).2) = ""
     ∧ io.fault (http.Body (checkResponse r).2) = io.fault (http.Body r)
     ∧ ∃ e, (checkResponse r).1 ≫= record_of = Some e
          ∧ er_Response e = Some (checkResponse r).2).
Proof.
  split; [|split].
  - intros Hs. by rewrite (checkResponse_success r Hs).
  - intros Hs. destruct (checkResponse_failure r Hs) as (e & r' & -> & _). eauto.
  - intros Hs Hkept. destruct (checkResponse_kept r Hs Hkept) as (e & -> & Hr). simpl.
    repeat split. exists e. split; [unfold variant_for; by case_decide|done].
Qed.

(** X3: [Error] on the error of the classifier panics exactly when the
    field [Response] of the record is nil or the response it points to
    carries no request; when the body leaves the response alone, that is
    exactly when the response came without a request, and with a request
    whose URL is nil the text has [<nil>] in the place of the URL. *)
Theorem checkResponse_Error_panics (r : http.Response) :
  ¬ success (http.StatusCode r) →
  ∃ err e, (checkResponse r).1 = Some err
    ∧ record_of err = Some e
    ∧ (Error err = None
       ↔ er_Response e = None
         ∨ ∃ resp, er_Response e = Some resp ∧ http.Request_of resp = None)
    ∧ (leaves_response r →
       (Error err = None ↔ http.Request_of r = None)
       ∧ ∀ req, http.Request_of r = Some req → http.URL req = None →
           Error err = Some (http.Method req +:+ " <nil>: "
                             +:+ pretty (http.StatusCode r) +:+ " " +:+ Message e)).
Proof.
  intros Hs.
  assert (∀ status e, record_of (variant_for status e) = Some e
                      ∧ Error (variant_for status e) = ErrorResponse_Error e) as Hv
    by (intros status e; unfold variant_for; by case_decide).
  assert (∀ e, ErrorResponse_Error e = None
               ↔ er_Response e = None
                 ∨ ∃ resp, er_Response e = Some resp ∧ http.Request_of resp = None)
    as Hpanic.
  { intros e. unfold ErrorResponse_Error.
    destruct (er_Response e) as [resp|]; simpl; [|split; [by left|done]].
    destruct (http.Request_of resp) as [req|] eqn:Hreq; simpl.
    - split; [done|]. intros [?|(? & [= <-] & ?)]; congruence.
    - split; [|done]. intros _. right. eauto. }
  destruct (checkResponse_failure r Hs) as (e & r' & Hc & _).
  exists (variant_for (http.StatusCode r') e), e.
  destruct (Hv (http.StatusCode r') e) as [Hrec HErr].
  split; [by rewrite Hc|]. split; [done|]. rewrite HErr. split; [apply Hpanic|].
  intros Hkept. destruct (checkResponse_kept r Hs Hkept) as (e' & Hc' & Hr).
  rewrite Hc in Hc'. injection Hc' as Hvar ->.
  assert (e' = e) as ->.
  { revert Hvar. unfold variant_for. simpl. case_decide; congruence. }
  unfold ErrorResponse_Error. rewrite Hr. simpl.
  destruct (http.Request_of r) as [req|]; simpl.
  - split; [done|]. intros ? [= <-] ->. reflexivity.
  - split; [done|]. intros ? [=].
Qed.

End ClassifierMore.

(** Instance of X1: the 400 response of the tests decodes; a body that is
    no JSON becomes the message. *)
Lemma checkResponse_message_400 :
  (∃ e, (checkResponse (L := Sample.library)
           (Sample.response 400 Sample.invalid_data)).1 ≫= record_of = Some e
      ∧ Message e = "The given data was invalid.")
  ∧ ∃ e, (checkResponse (L := Sample.library)
            (Sample.response 502 "Bad Gateway")).1 ≫= record_of = Some e
       ∧ Message e = "Bad Gateway" ∧ Errors e = None.
Proof.
  assert (¬ success 400) as H400 by (unfold success; lia).
  assert (¬ success 502) as H502 by (unfold success; lia).
  split.
  - destruct (checkResponse_message (L := Sample.library)
                (Sample.response 400 Sample.invalid_data) Sample.invalid_data
                H400 eq_refl eq_refl) as (e & He & _ & Hm & _); [discriminate|].
    exists e. split; [exact He|]. apply Hm. vm_compute. reflexivity.
  - destruct (checkResponse_message (L := Sample.library)
                (Sample.response 502 "Bad Gateway") "Bad Gateway"
                H502 eq_refl eq_refl) as (e & He & Herr & _ & Hm); [discriminate|].
    exists e. split; [exact He|]. split; [apply Hm; vm_compute; discriminate|].
    rewrite Herr. vm_compute. reflexivity.
Defined.

(** Instance of X3: a 404 response of a mock that sets no request. *)
Lemma checkResponse_Error_panics_404 :
  ∃ err, (checkResponse (L := Sample.library)
            {| http.StatusCode := 404; http.Request_of := None;
               http.Body := {| io.pending := ""; io.fault := None |} |}).1 = Some err
       ∧ Error (L := Sample.library) err = None.
Proof.
  assert (¬ success 404) as Hs by (unfold success; lia).
  destruct (checkResponse_Error_panics (L := Sample.library)
              {| http.StatusCode := 404; http.Request_of := None;
                 http.Body := {| io.pending := ""; io.fault := None |} |} Hs)
    as (err & e & Herr & _ & _ & Hkept).
  exists err. split; [exact Herr|].
  destruct Hkept as [Hpanic _].
  - intros _ Hne. by destruct Hne.
  - apply Hpanic. reflexivity.
Defined.

(** * Further properties of the request builder *)

Section BuilderMore.

Context {L : Library}.

(** A request that [newRequest] returns is one that [http.NewRequest]
    returned for the method, with the headers set. *)
Lemma newRequest_built (c : Client) (method path : string) (body : GoValue Payload)
    (req : http.Request) :
  newRequest c method path body = Some (Some req, None) →
  ∃ reqURL reqBodyBytes req0,
    http_NewRequest method reqURL reqBodyBytes = inl req0
    ∧ req = set_headers c req0
    ∧ (method ≠ http.MethodPost → method ≠ http.MethodPut →
       method ≠ http.MethodDelete → reqBodyBytes = "").
Proof.
  assert (∀ u b, Some (newRequest_send c method u b) = Some (Some req, None) →
            ∃ req0, http_NewRequest method u b = inl req0 ∧ req = set_headers c req0)
    as Hsend.
  { intros u b. unfold newRequest_send.
    destruct (http_NewRequest method u b) as [req0|e]; [|done].
    intros [= <-]. eauto. }
  unfold newRequest. case_decide as Hm.
  - unfold json_Encode. destruct (json_Marshal body); [|done].
    intros (req0 & H0 & ->)%Hsend. eexists _, _, req0.
    split; [exact H0|]. split; [done|]. tauto.
  - case_decide as Hget.
    + destruct (addOptions _ _) as [[u e]|]; [|done]. simpl.
      intros (req0 & H0 & ->)%Hsend. eexists _, _, req0.
      split; [exact H0|]. split; done.
    + intros (req0 & H0 & ->)%Hsend. eexists _, _, req0.
      split; [exact H0|]. split; done.
Qed.

(** X4: every request that [newRequest] returns has the content type
    and the accepted type [application/json], the user agent of the
    client, and the bearer token of the current API key as the last value
    of [Authorization]; every other header, the method, the URL and the
    body are those of the request that [http.NewRequest] returned. *)
Theorem newRequest_headers (c : Client) (method path : string)
    (body : GoValue Payload) (req : http.Request) :
  newRequest c method path body = Some (Some req, None) →
  ∃ reqURL reqBodyBytes req0,
    http_NewRequest method reqURL reqBodyBytes = inl req0
    ∧ http.Header_of req !! "Content-Type" = Some ["application/json"]
    ∧ http.Header_of req !! "Accept" = Some ["application/json"]
    ∧ http.Header_of req !! "User-Agent" = Some ["Mailerlite-Client-Golang-v1"]
    ∧ http.Header_of req !! "Authorization"
      = Some (default [] (http.Header_of req0 !! "Authorization")
              ++ ["Bearer " +:+ apiKey c])%list
    ∧ (∀ k, k ≠ "Content-Type" → k ≠ "Accept" → k ≠ "User-Agent" →
            k ≠ "Authorization" →
            http.Header_of req !! k = http.Header_of req0 !! k)
    ∧ http.Method req = http.Method req0
    ∧ http.URL req = http.URL req0
    ∧ http.ReqBody req = http.ReqBody req0.
Proof.
  intros (u & b & req0 & H0 & -> & _)%newRequest_built.
  exists u, b, req0. split; [done|].
  unfold set_headers, set_Header, http.Header_Set, http.Header_Add. simpl.
  split; [by rewrite !lookup_insert_ne, lookup_insert_eq by done|].
  split; [by rewrite lookup_insert_ne, lookup_insert_eq by done|].
  split; [by rewrite lookup_insert_eq|].
  split; [by rewrite !lookup_insert_ne, lookup_insert_eq, lookup_insert_ne by done|].
  split; [|done].
  intros k ????. by rewrite !lookup_insert_ne by done.
Qed.

(** X5: with POST, PUT or DELETE a payload that [json.Marshal] rejects
    ends the call with that error and no request, whatever the path. *)
Theorem newRequest_marshal_failure (c : Client) (method path : string)
    (body : GoValue Payload) (err : exterr) :
  method = http.MethodPost ∨ method = http.MethodPut ∨ method = http.MethodDelete →
  json_Marshal body = inr err →
  newRequest c method path body = Some (None, Some (External err)).
Proof.
  intros Hm Herr. unfold newRequest, json_Encode.
  by rewrite decide_True, Herr.
Qed.

(** X6: the payload is sent with POST, PUT and DELETE only, compared
    letter for letter.  With any other method the body handed to
    [http.NewRequest] is empty, and unless the method is GET the payload
    has no influence on the request at all. *)
Theorem newRequest_payload_dropped (c : Client) (method path : string)
    (body : GoValue Payload) :
  method ≠ http.MethodPost →
  method ≠ http.MethodPut →
  method ≠ http.MethodDelete →
  (method ≠ http.MethodGet →
   newRequest c method path body
   = Some (newRequest_send c method (apiBase c +:+ path) ""))
  ∧ ((∀ m u b r, http_NewRequest m u b = inl r → http.ReqBody r = b) →
     ∀ req, newRequest c method path body = Some (Some req, None) →
            http.ReqBody req = "").
Proof.
  intros H1 H2 H3. split.
  - intros Hget. unfold newRequest. by rewrite !decide_False by tauto.
  - intros Hlaw req (u & b & req0 & H0 & -> & Hb)%newRequest_built.
    rewrite set_headers_ReqBody, (Hlaw _ _ _ _ H0). by apply Hb.
Qed.

(** Two clients with the same base URL build the same request up to the
    headers, or fail alike. *)
Lemma newRequest_same_base (c c' : Client) (method path : string)
    (body : GoValue Payload) :
  apiBase c' = apiBase c →
  (∃ req0, newRequest c method path body = Some (Some (set_headers c req0), None)
         ∧ newRequest c' method path body = Some (Some (set_headers c' req0), None))
  ∨ ((∀ req, newRequest c method path body ≠ Some (Some req, None))
     ∧ newRequest c' method path body = newRequest c method path body).
Proof.
  intros Hbase.
  assert (∀ u b,
            (∃ req0, Some (newRequest_send c method u b)
                     = Some (Some (set_headers c req0), None)
                   ∧ Some (newRequest_send c' method u b)
                     = Some (Some (set_headers c' req0), None))
            ∨ ((∀ req, Some (newRequest_send c method u b) ≠ Some (Some req, None))
               ∧ Some (newRequest_send c' method u b)
                 = Some (newRequest_send c method u b))) as Hsend.
  { intros u b. unfold newRequest_send.
    destruct (http_NewRequest method u b) as [req0|e]; [left; eauto|right].
    split; [intros req [=]|done]. }
  unfold newRequest. rewrite Hbase. case_decide.
  - destruct (json_Encode "" body) as [b [e|]]; [right; split; [intros ? [=]|done]|].
    apply Hsend.
  - case_decide; [|apply Hsend].
    destruct (addOptions _ _) as [[u e]|]; simpl; [apply Hsend|].
    right. split; [intros ? [=]|done].
Qed.

(** X7: [SetAPIKey] changes the bearer token of the requests built
    afterwards and nothing else about them: a request is built with the new
    key exactly when one is built with the old key, with the same method,
    URL, body and other headers, and a failure stays the same failure.
    [SetHttpClient] changes nothing about the requests built, and the
    executor does not look at the API key. *)
Theorem configuration_effects (c : Client) (key : string) (transport : http.Client)
    (method path : string) (body : GoValue Payload) :
  newRequest (SetHttpClient transport c) method path body = newRequest c method path body
  ∧ (∀ ctx req v, do (SetAPIKey key c) ctx req v = do c ctx req v)
  ∧ (∀ req, newRequest c method path body = Some (Some req, None) →
       ∃ req', newRequest (SetAPIKey key c) method path body = Some (Some req', None)
         ∧ http.Method req' = http.Method req
         ∧ http.URL req' = http.URL req
         ∧ http.ReqBody req' = http.ReqBody req
         ∧ (∀ k, k ≠ "Authorization" →
                 http.Header_of req' !! k = http.Header_of req !! k)
         ∧ last (default [] (http.Header_of req' !! "Authorization"))
           = Some ("Bearer " +:+ key))
  ∧ ((∀ req, newRequest c method path body ≠ Some (Some req, None)) →
     newRequest (SetAPIKey key c) method path body = newRequest c method path body).
Proof.
  split; [reflexivity|]. split; [reflexivity|].
  destruct (newRequest_same_base c (SetAPIKey key c) method path body eq_refl)
    as [(req0 & Hold & Hnew)|[Hnone Hsame]].
  - split; [|intros Hnone; by destruct (Hnone _ Hold)].
    intros req Hreq. rewrite Hold in Hreq. injection Hreq as <-.
    exists (set_headers (SetAPIKey key c) req0). split; [done|].
    unfold set_headers, set_Header, http.Header_Set, http.Header_Add. simpl.
    split; [done|]. split; [done|]. split; [done|]. split.
    + intros k Hk.
      destruct (decide (k = "User-Agent")) as [->|?];
        [by rewrite !lookup_insert_eq|rewrite !(lookup_insert_ne _ "User-Agent") by done].
      destruct (decide (k = "Accept")) as [->|?];
        [by rewrite !lookup_insert_eq|rewrite !(lookup_insert_ne _ "Accept") by done].
      by rewrite !(lookup_insert_ne _ "Authorization") by done.
    + rewrite !lookup_insert_ne, lookup_insert_eq by done. simpl.
      by rewrite last_snoc.
  - split; [intros req Hreq; by destruct (Hnone _ Hreq)|done].
Qed.

End BuilderMore.

(** Instance of X4: the list request of the tests carries the four
    headers. *)
Lemma newRequest_headers_subscribers :
  ∃ req,
    newRequest (L := Sample.library) Sample.test_client "GET" "/subscribers"
      Sample.no_filter = Some (Some req, None)
    ∧ http.Header_of req !! "Content-Type" = Some ["application/json"]
    ∧ http.Header_of req !! "Accept" = Some ["application/json"]
    ∧ http.Header_of req !! "User-Agent" = Some ["Mailerlite-Client-Golang-v1"]
    ∧ http.Header_of req !! "Authorization" = Some ["Bearer valid-api-key"].
Proof.
  destruct (newRequest (L := Sample.library) Sample.test_client "GET" "/subscribers"
              Sample.no_filter) as [[[req|] [e|]]|] eqn:Hreq;
    try (vm_compute in Hreq; discriminate).
  exists req. split; [reflexivity|].
  destruct (newRequest_headers (L := Sample.library) _ _ _ _ _ Hreq)
    as (u & b & req0 & H0 & Hct & Hacc & Hua & Hauth & _).
  split; [exact Hct|]. split; [exact Hacc|]. split; [exact Hua|].
  rewrite Hauth.
  assert (http.Header_of req0 = ∅) as ->; [|reflexivity].
  revert H0. simpl. unfold Sample.NewRequest.
  destruct (negb _); [discriminate|].
  destruct (Sample.Parse u); [|discriminate].
  intros [= <-]. reflexivity.
Defined.

(** Instance of X5: the sample [json.Marshal] does not take a string with
    a quotation mark. *)
Lemma newRequest_marshal_failure_text :
  newRequest (L := Sample.library) Sample.test_client "POST" "/subscribers"
    (Val (Sample.Text "a'b"))
  = Some (None, Some (External Sample.unmodelled)).
Proof.
  apply (newRequest_marshal_failure (L := Sample.library)).
  - left. reflexivity.
  - vm_compute. reflexivity.
Defined.

(** Instance of X6: a PATCH request is built without its payload. *)
Lemma newRequest_payload_dropped_PATCH :
  newRequest (L := Sample.library) Sample.test_client "PATCH" "/subscribers"
    (Val (Sample.Text "active"))
  = newRequest (L := Sample.library) Sample.test_client "PATCH" "/subscribers" Nil
  ∧ ∃ req, newRequest (L := Sample.library) Sample.test_client "PATCH" "/subscribers"
             (Val (Sample.Text "active")) = Some (Some req, None)
         ∧ http.ReqBody req = "".
Proof.
  assert ("PATCH" ≠ http.MethodPost) as H1 by discriminate.
  assert ("PATCH" ≠ http.MethodPut) as H2 by discriminate.
  assert ("PATCH" ≠ http.MethodDelete) as H3 by discriminate.
  assert ("PATCH" ≠ http.MethodGet) as H4 by discriminate.
  destruct (newRequest_payload_dropped (L := Sample.library) Sample.test_client
              "PATCH" "/subscribers" (Val (Sample.Text "active")) H1 H2 H3)
    as [Hsame Hempty].
  destruct (newRequest_payload_dropped (L := Sample.library) Sample.test_client
              "PATCH" "/subscribers" Nil H1 H2 H3) as [Hnil _].
  split; [by rewrite (Hsame H4), (Hnil H4)|].
  destruct (newRequest (L := Sample.library) Sample.test_client "PATCH" "/subscribers"
              (Val (Sample.Text "active"))) as [[[req|] [e|]]|] eqn:Hreq;
    try (vm_compute in Hreq; discriminate).
  exists req. split; [reflexivity|].
  apply (Hempty Sample_NewRequest_body req). reflexivity.
Defined.

(** Instance of X7: the client of [TestWillHandleAPIAuthError] after
    [SetAPIKey]. *)
Lemma configuration_effects_invalid_key :
  ∃ req',
    newRequest (L := Sample.library) (SetAPIKey "invalid-api-key" Sample.test_client)
      "GET" "/subscribers" Sample.no_filter = Some (Some req', None)
    ∧ last (default [] (http.Header_of req' !! "Authorization"))
      = Some "Bearer invalid-api-key".
Proof.
  destruct (newRequest (L := Sample.library) Sample.test_client "GET" "/subscribers"
              Sample.no_filter) as [[[req|] [e|]]|] eqn:Hreq;
    try (vm_compute in Hreq; discriminate).
  destruct (configuration_effects (L := Sample.library) Sample.test_client
              "invalid-api-key" Sample.refused "GET" "/subscribers" Sample.no_filter)
    as (_ & _ & Hkey & _).
  destruct (Hkey req Hreq) as (req' & Hnew & _ & _ & _ & _ & Hlast).
  exists req'. split; [exact Hnew|exact Hlast].
Defined.

(** * Further properties of the executor *)

Section ExecutorMore.

Context {L : Library}.

(** The executor after the transport has returned a response with a
    success status. *)
Lemma do_success (c : Client) (ctx : context.Context) (req : http.Request)
    (v : option Target) (resp : http.Response) :
  http.Do (client c) (http.WithContext ctx req) = inl resp →
  success (http.StatusCode resp) →
  do c ctx req v
  = match v with
    | None => (Some (newResponse resp), None, None)
    | Some target =>
        match json_Decode (http.Body resp) target with
        | (target, _, Some err) => (None, Some (External err), Some target)
        | (target, body, None) =>
            (Some (newResponse (http.set_Body body resp)), None, Some target)
        end
    end.
Proof.
  intros Hdo Hs. unfold do. rewrite Hdo, (checkResponse_success resp Hs).
  destruct v as [target|]; [|done].
  by destruct (json_Decode _ _) as [[t b] [e|]].
Qed.

(** The executor after the transport has returned a response with a
    failing status. *)
Lemma do_failure (c : Client) (ctx : context.Context) (req : http.Request)
    (v : option Target) (resp : http.Response) :
  http.Do (client c) (http.WithContext ctx req) = inl resp →
  ¬ success (http.StatusCode resp) →
  ∃ err, (checkResponse resp).1 = Some err
    ∧ do c ctx req v
      = (Some (newResponse
                 (http.set_Body (Body_Close (http.Body (checkResponse resp).2))
                    (checkResponse resp).2)),
         Some err, v).
Proof.
  intros Hdo Hs. unfold do. rewrite Hdo.
  destruct (checkResponse_failure resp Hs) as (e & r' & -> & _). simpl. eauto.
Qed.

(** X8: when the transport returns a response with a failing status
    whose body leaves the response alone, the executor returns the error of
    the classifier together with the response, which has the status code
    and the request of the transport's response and a body that was read
    by the classifier and then closed; the decode target is left as it
    was. *)
Theorem do_api_error (c : Client) (ctx : context.Context) (req : http.Request)
    (v : option Target) (resp : http.Response) :
  http.Do (client c) (http.WithContext ctx req) = inl resp →
  ¬ success (http.StatusCode resp) →
  leaves_response resp →
  ∃ response err e,
    do c ctx req v = (Some response, Some err, v)
    ∧ (checkResponse resp).1 = Some err
    ∧ err = variant_for (http.StatusCode resp) e
    ∧ http.StatusCode (embedded response) = http.StatusCode resp
    ∧ http.Request_of (embedded response) = http.Request_of resp
    ∧ http.Body (embedded response)
      = Body_Close {| io.pending := ""; io.fault := io.fault (http.Body resp) |}.
Proof.
  intros Hdo Hs Hkept.
  destruct (do_failure c ctx req v resp Hdo Hs) as (err & Herr & ->).
  destruct (checkResponse_kept resp Hs Hkept) as (e & He & _).
  rewrite He in Herr |- *. simpl in *. injection Herr as <-.
  eexists _, _, e. repeat split.
Qed.

(** X9: the executor returns no response exactly when the transport
    failed, or the status is a success and decoding the body into the
    target failed. *)
Theorem do_nil_response (c : Client) (ctx : context.Context) (req : http.Request)
    (v : option Target) :
  (do c ctx req v).1.1 = None
  ↔ (∃ err, http.Do (client c) (http.WithContext ctx req) = inr err)
    ∨ (∃ resp target,
         http.Do (client c) (http.WithContext ctx req) = inl resp
         ∧ success (http.StatusCode resp)
         ∧ v = Some target
         ∧ (json_Decode (http.Body resp) target).2 ≠ None).
Proof.
  destruct (http.Do (client c) (http.WithContext ctx req)) as [resp|err] eqn:Hdo.
  - destruct (success_dec (http.StatusCode resp)) as [Hs|Hs].
    + rewrite (do_success c ctx req v resp Hdo Hs).
      destruct v as [target|]; simpl.
      * destruct (json_Decode (http.Body resp) target) as [[t b] [e|]] eqn:Hdec; simpl.
        -- split; [|done]. intros _. right. exists resp, target.
           rewrite Hdec. by repeat split.
        -- split; [done|]. intros [[? ?]|(? & ? & ? & ? & ? & Hne)]; [done|].
           simplify_eq. rewrite Hdec in Hne. by destruct Hne.
      * split; [done|]. intros [[? ?]|(? & ? & ? & ? & ? & ?)]; done.
    + destruct (do_failure c ctx req v resp Hdo Hs) as (err & _ & ->). simpl.
      split; [done|]. intros [[? ?]|(? & ? & ? & ? & ? & ?)]; [done|]. by simplify_eq.
  - split; [eauto|]. intros _. unfold do. rewrite Hdo. by destruct (context.Done ctx).
Qed.

(** X10: the executor returns a nil error exactly when the transport
    returned a response with a success status and there was no target or
    the body decoded into it; or, on a transport failure, when the context
    is done and its [Err] is nil all the same. *)
Theorem do_nil_error (c : Client) (ctx : context.Context) (req : http.Request)
    (v : option Target) :
  (do c ctx req v).1.2 = None
  ↔ (∃ resp,
       http.Do (client c) (http.WithContext ctx req) = inl resp
       ∧ success (http.StatusCode resp)
       ∧ (v = None
          ∨ ∃ target, v = Some target
                      ∧ (json_Decode (http.Body resp) target).2 = None))
    ∨ (∃ err, http.Do (client c) (http.WithContext ctx req) = inr err
              ∧ context.Done ctx = true ∧ context.Err ctx = None).
Proof.
  destruct (http.Do (client c) (http.WithContext ctx req)) as [resp|err] eqn:Hdo.
  - destruct (success_dec (http.StatusCode resp)) as [Hs|Hs].
    + rewrite (do_success c ctx req v resp Hdo Hs).
      destruct v as [target|]; simpl.
      * destruct (json_Decode (http.Body resp) target) as [[t b] [e|]] eqn:Hdec; simpl.
        -- split; [done|]. intros [(? & ? & ? & [?|(? & ? & Hok)])|(? & ? & ?)]; try done.
           simplify_eq. by rewrite Hdec in Hok.
        -- split; [|done]. intros _. left. exists resp. split; [done|]. split; [done|].
           right. exists target. by rewrite Hdec.
      * split; [|done]. intros _. left. exists resp. eauto.
    + destruct (do_failure c ctx req v resp Hdo Hs) as (err & _ & ->). simpl.
      split; [done|]. intros [(? & ? & ? & ?)|(? & ? & ?)]; [|done]. by simplify_eq.
  - unfold do. rewrite Hdo. destruct ctx as [[|] [e|]]; simpl.
    + split; [done|]. intros [(? & ? & ?)|(? & ? & ? & ?)]; done.
    + split; [|done]. intros _. right. eauto.
    + split; [done|]. intros [(? & ? & ?)|(? & ? & ? & ?)]; done.
    + split; [done|]. intros [(? & ? & ?)|(? & ? & ? & ?)]; done.
Qed.

(** X11: the state of the context matters on a transport failure only:
    when the transport returns the same response under two contexts, the
    executor returns the same under both, also when one of them is done. *)
Theorem do_response_despite_context (c : Client) (ctx ctx' : context.Context)
    (req : http.Request) (v : option Target) (resp : http.Response) :
  http.Do (client c) (http.WithContext ctx req) = inl resp →
  http.Do (client c) (http.WithContext ctx' req) = inl resp →
  do c ctx req v = do c ctx' req v.
Proof. intros H1 H2. unfold do. by rewrite H1, H2. Qed.

(** X12: the executor writes to the decode target only after a response
    with a success status; after a transport failure or a failing status
    the target is as it was, and so it is when no target was given. *)
Theorem do_target_untouched (c : Client) (ctx : context.Context) (req : http.Request)
    (v : option Target) :
  (do c ctx req v).2 ≠ v →
  ∃ resp target,
    http.Do (client c) (http.WithContext ctx req) = inl resp
    ∧ success (http.StatusCode resp)
    ∧ v = Some target
    ∧ (do c ctx req v).2 = Some (json_Decode (http.Body resp) target).1.1.
Proof.
  destruct (http.Do (client c) (http.WithContext ctx req)) as [resp|err] eqn:Hdo.
  - destruct (success_dec (http.StatusCode resp)) as [Hs|Hs].
    + rewrite (do_success c ctx req v resp Hdo Hs).
      destruct v as [target|]; [|done].
      intros _. exists resp, target. repeat split; try done.
      by destruct (json_Decode _ _) as [[t b] [e|]].
    + destruct (do_failure c ctx req v resp Hdo Hs) as (err & _ & ->). done.
  - unfold do. rewrite Hdo. by destruct (context.Done ctx).
Qed.

End ExecutorMore.

(** Instance of X8: the 401 of the tests comes back with the response. *)
Lemma do_api_error_401 :
  ∃ response e,
    do (L := Sample.library) (Sample.mock_client 401 Sample.unauthenticated)
      context.Background Sample.get_subscribers (Some None)
    = (Some response, Some (AuthError_ptr e), Some None)
    ∧ http.StatusCode (embedded response) = 401.
Proof.
  assert (¬ success 401) as Hs by (unfold success; lia).
  assert (leaves_response (L := Sample.library)
            (Sample.response 401 Sample.unauthenticated)) as Hkept
    by (intros _ _; vm_compute; reflexivity).
  destruct (do_api_error (L := Sample.library)
              (Sample.mock_client 401 Sample.unauthenticated)
              context.Background Sample.get_subscribers (Some None)
              (Sample.response 401 Sample.unauthenticated) eq_refl Hs Hkept)
    as (response & err & e & Hdo & _ & -> & Hstatus & _).
  exists response, e. split; [exact Hdo|exact Hstatus].
Defined.

(** Instance of X9 and X10: [TestCanMakeMockApiCall] with a target: the
    body [OK] is no JSON, so there is an error and no response; without a
    target the response comes back. *)
Lemma do_nil_response_accepted :
  (do (L := Sample.library) (SetHttpClient Sample.accepted Sample.test_client)
     context.Background Sample.get_subscribers (Some None)).1.1 = None.
Proof.
  apply (do_nil_response (L := Sample.library)). right.
  eexists _, None. split; [reflexivity|]. split; [by left|]. split; [reflexivity|].
  vm_compute. discriminate.
Defined.

Lemma do_nil_error_accepted :
  (do (L := Sample.library) (SetHttpClient Sample.accepted Sample.test_client)
     context.Background Sample.get_subscribers None).1.2 = None.
Proof.
  apply (do_nil_error (L := Sample.library)). left.
  eexists. split; [reflexivity|]. split; [by left|]. by left.
Defined.

(** Instance of X11: the response of [TestCanMakeMockApiCall] under a
    context that is done. *)
Lemma do_response_despite_context_canceled :
  do (L := Sample.library) (SetHttpClient Sample.accepted Sample.test_client)
    Sample.canceled Sample.get_subscribers None
  = do (L := Sample.library) (SetHttpClient Sample.accepted Sample.test_client)
      context.Background Sample.get_subscribers None.
Proof.
  apply (do_response_despite_context (L := Sample.library)
           (SetHttpClient Sample.accepted Sample.test_client)
           Sample.canceled context.Background Sample.get_subscribers None
           {| http.StatusCode := http.StatusAccepted; http.Request_of := None;
              http.Body := {| io.pending := "OK"; io.fault := None |} |});
    reflexivity.
Defined.

(** Instance of X12: a list response is decoded into the target. *)
Lemma do_target_untouched_list :
  ∃ resp target,
    http.Do (Sample.RoundTripFunc 200 Sample.one_subscriber)
      (http.WithContext context.Background Sample.get_subscribers) = inl resp
    ∧ success (http.StatusCode resp)
    ∧ (do (L := Sample.library) (Sample.mock_client 200 Sample.one_subscriber)
         context.Background Sample.get_subscribers (Some None)).2
      = Some (Sample.Decode (http.Body resp) target).1.1.
Proof.
  destruct (do_target_untouched (L := Sample.library)
              (Sample.mock_client 200 Sample.one_subscriber)
              context.Background Sample.get_subscribers (Some None))
    as (resp & target & Hdo & Hs & _ & Htarget).
  - vm_compute. discriminate.
  - exists resp, target. split; [exact Hdo|]. split; [exact Hs|exact Htarget].
Defined.

(** * Further properties of the option encoder *)

Section EncoderMore.

Context {L : Library}.

(** The values that the encoder encodes, in closed form. *)
Lemma addOptions_values_closed (orig newValues : url.Values) :
  addOptions_values orig newValues
  = key ← assigned (newValues !! "Filter[Name]") "" filter_param;
    value ← assigned (newValues !! "Filter[Value]") "" id;
    Some (if decide (key ≠ "")
          then url.Add key value
                 (filter (λ kv : string * list string, ¬ raw_key kv.1) newValues ∪ orig)
          else filter (λ kv : string * list string, ¬ raw_key kv.1) newValues ∪ orig).
Proof.
  unfold addOptions_values.
  rewrite addOptions_loop_closed by apply NoDup_fst_map_to_list.
  rewrite list_to_map_to_list. unfold loop_result.
  cbn [filterKey filterValue origValues].
  destruct (assigned (newValues !! "Filter[Name]") "" filter_param); [|done].
  by destruct (assigned (newValues !! "Filter[Value]") "" id).
Qed.

(** X13: the encoder merges by key.  For a key that is not of the form
    [filter[...]]: a key that the options do not have keeps the values of
    the base URL; a key that the options have, other than the three raw
    keys, gets the values of the options in place of those of the base
    URL; a raw key of the options is dropped and the base URL's values for
    it stay. *)
Theorem addOptions_values_merge (orig newValues values : url.Values) (k : string) :
  addOptions_values orig newValues = Some values →
  (∀ name, k ≠ filter_param name) →
  (newValues !! k = None → values !! k = orig !! k)
  ∧ (∀ v, newValues !! k = Some v → ¬ raw_key k → values !! k = Some v)
  ∧ (raw_key k → values !! k = orig !! k).
Proof.
  rewrite addOptions_values_closed. intros Hvalues Hk.
  assert (values !! k
          = (filter (λ kv : string * list string, ¬ raw_key kv.1) newValues ∪ orig) !! k)
    as ->.
  { destruct (newValues !! "Filter[Name]") as [[|name names]|]; [done|..];
      destruct (assigned (newValues !! "Filter[Value]") "" id);
      cbn [assigned mbind option_bind] in Hvalues; try done.
    - rewrite decide_True in Hvalues by apply filter_param_nonempty.
      injection Hvalues as <-. rewrite lookup_Add. by rewrite decide_False by naive_solver.
    - rewrite decide_False in Hvalues by (intros Hne; by apply Hne). by injection Hvalues as <-. }
  rewrite lookup_overlay. split; [|split].
  - intros Hnone. case_decide; [done|]. by rewrite lookup_union, Hnone, (left_id_L None _).
  - intros v Hv Hraw. rewrite decide_False by done.
    by rewrite lookup_union, Hv, union_Some_l.
  - intros Hraw. by rewrite decide_True.
Qed.

(** X14: the encoder panics exactly when the options are no nil
    pointer, the base URL parses, the options serialise, and the values
    hold an empty slice under [Filter[Name]] or [Filter[Value]]; in every
    other case it returns. *)
Theorem addOptions_panics_iff (s : string) (opt : GoValue Payload) :
  addOptions s opt = None
  ↔ is_nil_ptr opt = false
    ∧ ∃ u newValues,
        url_Parse s = inl u
        ∧ query_Values opt = inl newValues
        ∧ (newValues !! "Filter[Name]" = Some []
           ∨ newValues !! "Filter[Value]" = Some []).
Proof.
  unfold addOptions. destruct (is_nil_ptr opt); [split; [done|by intros [? _]]|].
  destruct (url_Parse s) as [u|e]; [|split; [done|by intros (_ & ? & ? & ? & _)]].
  destruct (query_Values opt) as [newValues|e];
    [|split; [done|by intros (_ & ? & ? & _ & ? & _)]].
  rewrite addOptions_values_closed.
  split.
  - intros Hnone. split; [done|]. exists u, newValues. split; [done|]. split; [done|].
    destruct (newValues !! "Filter[Name]") as [[|? ?]|]; [by left|..];
      (destruct (newValues !! "Filter[Value]") as [[|? ?]|]; [by right|done..]).
  - intros (_ & u' & nv' & [= <-] & [= <-] & [-> | ->]); [done|].
    by destruct (assigned (newValues !! "Filter[Name]") "" filter_param).
Qed.

(** X15: Go visits the entries of a map in an order of its choice; the
    values that the encoder encodes are the same for every order. *)
Theorem addOptions_iteration_order (orig newValues : url.Values)
    (entries : list (string * list string)) :
  entries ≡ₚ map_to_list newValues →
  (st ← addOptions_loop entries
          {| origValues := orig; filterKey := ""; filterValue := "" |};
   Some (if decide (filterKey st ≠ "")
         then url.Add (filterKey st) (filterValue st) (origValues st)
         else origValues st))
  = addOptions_values orig newValues.
Proof.
  intros Hperm. unfold addOptions_values.
  by rewrite (addOptions_loop_order newValues entries _ Hperm).
Qed.

(** X16: options that serialise to nothing but the key [Filter] (no
    options at all, or a nil filter and no other field) leave the query
    values of the base URL as they are.  Unlike for a nil pointer, the
    output is not the input string but the URL with its query encoded
    anew. *)
Theorem addOptions_no_values (s : string) (opt : GoValue Payload) (u : url.URL)
    (newValues : url.Values) :
  is_nil_ptr opt = false →
  url_Parse s = inl u →
  query_Values opt = inl newValues →
  (∀ k, k ≠ "Filter" → newValues !! k = None) →
  addOptions s opt
  = Some (URL_String (url.set_RawQuery (Values_Encode (URL_Query u)) u), None).
Proof.
  intros Hopt Hu Hnv Hkeys. unfold addOptions. rewrite Hopt, Hu, Hnv.
  rewrite addOptions_values_closed, !Hkeys by done.
  cbn [assigned mbind option_bind].
  rewrite decide_False by (intros Hne; by apply Hne).
  assert (filter (λ kv : string * list string, ¬ raw_key kv.1) newValues = ∅) as ->.
  { apply map_eq. intros k. rewrite lookup_empty. apply map_lookup_filter_None.
    destruct (decide (k = "Filter")) as [->|Hk]; [|left; by apply Hkeys].
    right. intros x _ Hraw. apply Hraw. by left. }
  by rewrite (left_id_L ∅ (∪)).
Qed.

(** X17: the encoder has two errors, in this order: the error of
    [url.Parse] on the base URL, and, when the URL parses, the error of
    [query.Values] on the options; with either it returns the base URL
    string as it is.  A nil pointer for options is never an error. *)
Theorem addOptions_error_iff (s s' : string) (opt : GoValue Payload) (e : error) :
  addOptions s opt = Some (s', Some e)
  ↔ is_nil_ptr opt = false
    ∧ s' = s
    ∧ ((∃ err, url_Parse s = inr err ∧ e = External err)
       ∨ (∃ u err, url_Parse s = inl u ∧ query_Values opt = inr err
                   ∧ e = External err)).
Proof.
  unfold addOptions. destruct (is_nil_ptr opt); [split; [done|by intros [? _]]|].
  destruct (url_Parse s) as [u|err].
  - destruct (query_Values opt) as [newValues|err].
    + destruct (addOptions_values _ _); simpl.
      * split; [done|]. intros (_ & _ & [(? & ? & _)|(? & ? & _ & ? & _)]); done.
      * split; [done|]. intros (_ & _ & [(? & ? & _)|(? & ? & _ & ? & _)]); done.
    + split.
      * intros [= <- <-]. split; [done|]. split; [done|]. right. eauto.
      * intros (_ & -> & [(? & ? & _)|(? & ? & _ & [= <-] & ->)]); done.
  - split.
    + intros [= <- <-]. split; [done|]. split; [done|]. left. eauto.
    + intros (_ & -> & [(? & [= <-] & ->)|(? & ? & ? & _)]); done.
Qed.

End EncoderMore.

(** Instance of X13: the page of the options replaces the page of the
    base URL, the limit of the base URL stays, the raw key is dropped. *)
Lemma addOptions_values_merge_page :
  ∃ values,
    addOptions_values {[ "page" := ["1"]; "limit" := ["5"] ]}
      {[ "page" := ["2"]; "Filter" := [""] ]} = Some values
    ∧ values !! "limit" = Some ["5"]
    ∧ values !! "page" = Some ["2"]
    ∧ values !! "Filter" = None.
Proof.
  destruct (addOptions_values {[ "page" := ["1"]; "limit" := ["5"] ]}
              {[ "page" := ["2"]; "Filter" := [""] ]}) as [values|] eqn:Hv;
    [|vm_compute in Hv; discriminate].
  exists values. split; [reflexivity|].
  assert (∀ k, (k = "limit" ∨ k = "page" ∨ k = "Filter") →
               ∀ name, k ≠ filter_param name) as Hk.
  { intros k [->|[->| ->]] name; discriminate. }
  split; [|split].
  - destruct (addOptions_values_merge _ _ _ "limit" Hv) as (Hkeep & _ & _);
      [apply Hk; tauto|].
    rewrite Hkeep; vm_compute; reflexivity.
  - destruct (addOptions_values_merge _ _ _ "page" Hv) as (_ & Hreplace & _);
      [apply Hk; tauto|].
    apply Hreplace; [vm_compute; reflexivity|unfold raw_key; intros [?|[?|?]]; discriminate].
  - destruct (addOptions_values_merge _ _ _ "Filter" Hv) as (_ & _ & Hraw);
      [apply Hk; tauto|].
    rewrite Hraw; [vm_compute; reflexivity|by left].
Defined.

(** Instance of X14: with a serialiser that stores an empty slice the
    encoder panics. *)
Lemma addOptions_panics_iff_empty_slice :
  addOptions (L := Sample.with_empty_slice) Sample.subscribers Sample.status_active = None.
Proof.
  apply (addOptions_panics_iff (L := Sample.with_empty_slice)).
  split; [reflexivity|]. eexists _, _. split; [vm_compute; reflexivity|].
  split; [reflexivity|]. left. reflexivity.
Defined.

(** Instance of X15: the entries of the filter of the tests, visited
    backwards. *)
Lemma addOptions_iteration_order_reverse :
  (st ← addOptions_loop
          (reverse (map_to_list (url.Add "Filter[Value]" "active"
                                   (url.Add "Filter[Name]" "status" ∅))))
          {| origValues := ∅; filterKey := ""; filterValue := "" |};
   Some (if decide (filterKey st ≠ "")
         then url.Add (filterKey st) (filterValue st) (origValues st)
         else origValues st))
  = Some {[ "filter[status]" := ["active"] ]}.
Proof.
  rewrite (addOptions_iteration_order ∅
             (url.Add "Filter[Value]" "active" (url.Add "Filter[Name]" "status" ∅))).
  - vm_compute. reflexivity.
  - apply reverse_Permutation.
Defined.

(** Instance of X16: a list request without filter on a base URL with a
    query: the values stay, their order in the string does not. *)
Lemma addOptions_no_values_sorted :
  addOptions (L := Sample.library) (Sample.subscribers +:+ "?page=2&limit=5")
    Sample.no_filter
  = Some (Sample.subscribers +:+ "?limit=5&page=2", None).
Proof.
  rewrite (addOptions_no_values (L := Sample.library)
             (Sample.subscribers +:+ "?page=2&limit=5") Sample.no_filter
             (url.set_RawQuery "page=2&limit=5" Sample.subscribers_URL)
             (url.Add "Filter" "" ∅)).
  - vm_compute. reflexivity.
  - reflexivity.
  - vm_compute. reflexivity.
  - reflexivity.
  - intros k Hk. unfold url.Add. by rewrite lookup_insert_ne, lookup_empty.
Defined.

(** Instance of X17: a Go string for options is the error of
    [query.Values]. *)
Lemma addOptions_error_iff_text :
  addOptions (L := Sample.library) Sample.subscribers (Val (Sample.Text "active"))
  = Some (Sample.subscribers,
          Some (External "query: Values() expects struct input. Got string")).
Proof.
  apply (addOptions_error_iff (L := Sample.library)).
  split; [reflexivity|]. split; [reflexivity|]. right.
  eexists _, _. split; [vm_compute; reflexivity|]. split; reflexivity.
Defined.

(** * Further properties of the cursor *)

Section CursorMore.

Context {L : Library}.

(** X18: [IsLastPage] is true exactly when [next] is empty, and panics
    on a nil links object, which [NextPageToken] accepts.  On a last page
    the next token is empty, with no error. *)
Theorem IsLastPage_cases (l : option Links) :
  (IsLastPage l = None ↔ l = None)
  ∧ (IsLastPage l = Some true ↔ ∃ x, l = Some x ∧ Next x = "")
  ∧ (IsLastPage l = Some false ↔ ∃ x, l = Some x ∧ Next x ≠ "")
  ∧ (IsLastPage l = Some true → NextPageToken l = ("", None))
  ∧ (l = None → NextPageToken l = ("", None)).
Proof.
  unfold IsLastPage, isLast, NextPageToken, nextPageToken.
  destruct l as [x|]; simpl.
  - destruct (decide (Next x = "")) as [Hx|Hx].
    + rewrite bool_decide_eq_true_2 by done.
      repeat split; try done; eauto.
      intros (? & [= <-] & ?). done.
    + rewrite bool_decide_eq_false_2 by done.
      repeat split; try done; eauto.
      intros (? & [= <-] & ?). done.
  - repeat split; try done; by intros (? & ? & _).
Qed.

(** X19: [pageForURL] returns the page number of a URL that parses and
    whose first [page] parameter [strconv.Atoi] accepts, and otherwise page
    zero with the error of the parser or of [Atoi]; a URL without [page]
    parameter is handed to [Atoi] as the empty string. *)
Theorem pageForURL_cases (urlText : string) :
  (∀ page, pageForURL urlText = (page, None)
           ↔ ∃ u, url_ParseRequestURI urlText = inl u
                  ∧ strconv_Atoi (url.Get (URL_Query u) "page") = inl page)
  ∧ (∀ e, (pageForURL urlText).2 = Some e
          ↔ (pageForURL urlText).1 = 0
            ∧ ((∃ err, url_ParseRequestURI urlText = inr err ∧ e = External err)
               ∨ ∃ u err, url_ParseRequestURI urlText = inl u
                          ∧ strconv_Atoi (url.Get (URL_Query u) "page") = inr err
                          ∧ e = External err))
  ∧ (∀ u, url_ParseRequestURI urlText = inl u → URL_Query u !! "page" = None →
          pageForURL urlText
          = match strconv_Atoi "" with
            | inl page => (page, None)
            | inr err => (0, Some (External err))
            end).
Proof.
  unfold pageForURL. destruct (url_ParseRequestURI urlText) as [u|err].
  - split; [|split].
    + intros page. destruct (strconv_Atoi _) as [p|e] eqn:Hp.
      * split; [intros [= <-]; eauto|]. intros (? & [= <-] & Hp'). congruence.
      * split; [done|]. intros (? & [= <-] & Hp'). congruence.
    + intros e. destruct (strconv_Atoi _) as [p|e'] eqn:Hp; simpl.
      * split; [done|]. intros (_ & [(? & ? & _)|(? & ? & [= <-] & ? & _)]); [done|].
        congruence.
      * split.
        -- intros [= <-]. split; [done|]. right. eauto.
        -- intros (_ & [(? & ? & _)|(? & ? & [= <-] & ? & ->)]); [done|]. congruence.
    + intros ? [= <-] Habs. by rewrite (Get_absent _ _ Habs).
  - split; [|split].
    + intros page. split; [done|]. by intros (? & ? & _).
    + intros e. simpl. split.
      * intros [= <-]. split; [done|]. left. eauto.
      * intros (_ & [(? & [= <-] & ->)|(? & ? & ? & _)]); done.
    + intros ? [=].
Qed.

End CursorMore.

(** Instance of X18: the links of [TestWillHandleAPIFilters] are not a
    last page, and yet give an empty next token, since the link has no
    [page_token]; a links object without next link is a last page. *)
Lemma IsLastPage_cases_links :
  IsLastPage (Some (Sample.links "" (Sample.subscribers +:+ "?page=2"))) = Some false
  ∧ NextPageToken (L := Sample.library)
      (Some (Sample.links "" (Sample.subscribers +:+ "?page=2"))) = ("", None)
  ∧ IsLastPage (Some (Sample.links (Sample.subscribers +:+ "?page=1") "")) = Some true
  ∧ NextPageToken (L := Sample.library)
      (Some (Sample.links (Sample.subscribers +:+ "?page=1") "")) = ("", None).
Proof.
  destruct (IsLastPage_cases (L := Sample.library)
              (Some (Sample.links "" (Sample.subscribers +:+ "?page=2"))))
    as (_ & _ & Hfalse & _).
  destruct (IsLastPage_cases (L := Sample.library)
              (Some (Sample.links (Sample.subscribers +:+ "?page=1") "")))
    as (_ & Htrue & _ & Htoken & _).
  split; [|split; [|split]].
  - apply Hfalse. eexists. split; [reflexivity|discriminate].
  - vm_compute. reflexivity.
  - apply Htrue. eexists. split; reflexivity.
  - apply Htoken. reflexivity.
Defined.

(** Instance of X19: a link with a page, and a link without. *)
Lemma pageForURL_cases_links :
  pageForURL (L := Sample.library) (Sample.subscribers +:+ "?page=2") = (2, None)
  ∧ pageForURL (L := Sample.library) Sample.subscribers
    = (0, Some (External "strconv.Atoi: invalid syntax")).
Proof.
  split.
  - apply (pageForURL_cases (L := Sample.library) (Sample.subscribers +:+ "?page=2")).
    eexists. split; [vm_compute; reflexivity|vm_compute; reflexivity].
  - destruct (pageForURL_cases (L := Sample.library) Sample.subscribers)
      as (_ & _ & Habsent).
    rewrite (Habsent Sample.subscribers_URL); [reflexivity|vm_compute; reflexivity|].
    vm_compute. reflexivity.
Defined.

(** * The outcomes of the request builder *)

Section BuilderOutcomes.

Context {L : Library}.

(** X20: [newRequest] returns either a request and a nil error, or no
    request and an error, never both and never neither; it panics only
    with GET, and only when the option encoder panics. *)
Theorem newRequest_outcomes (c : Client) (method path : string) (body : GoValue Payload) :
  (∀ req e, newRequest c method path body = Some (req, e) →
            (∃ r, req = Some r ∧ e = None) ∨ (∃ err, req = None ∧ e = Some (External err)))
  ∧ (newRequest c method path body = None
     ↔ method = http.MethodGet ∧ addOptions (apiBase c +:+ path) body = None).
Proof.
  assert (∀ u b req e, Some (newRequest_send c method u b) = Some (req, e) →
            (∃ r, req = Some r ∧ e = None)
            ∨ (∃ err, req = None ∧ e = Some (External err))) as Hsend.
  { intros u b req e. unfold newRequest_send.
    destruct (http_NewRequest method u b); intros [= <- <-]; eauto. }
  unfold newRequest. case_decide as Hm.
  - assert (method ≠ http.MethodGet) as Hget
      by (intros ->; destruct Hm as [?|[?|?]]; done).
    destruct (json_Encode "" body) as [b [err|]].
    + split; [intros ?? [= <- <-]; eauto|]. split; [done|]. by intros [? _].
    + split; [apply Hsend|]. split; [done|]. by intros [? _].
  - case_decide as Hget.
    + destruct (addOptions _ _) as [[u e']|]; simpl.
      * split; [apply Hsend|]. split; [done|]. by intros [_ ?].
      * split; [done|]. done.
    + split; [apply Hsend|]. split; [done|]. by intros [? _].
Qed.

End BuilderOutcomes.

(** Instance of X20: a GET request panics with the serialiser that
    stores an empty slice. *)
Lemma newRequest_outcomes_empty_slice :
  newRequest (L := Sample.with_empty_slice) Sample.test_client "GET" "/subscribers"
    Sample.status_active = None.
Proof.
  apply (newRequest_outcomes (L := Sample.with_empty_slice)).
  split; [reflexivity|]. vm_compute. reflexivity.
Defined.

(** Instance of X2: the 400 response of the tests after classification. *)
Lemma checkResponse_state_400 :
  http.StatusCode (checkResponse (L := Sample.library)
                     (Sample.response 400 Sample.invalid_data)).2 = 400
  ∧ io.pending (http.Body (checkResponse (L := Sample.library)
                             (Sample.response 400 Sample.invalid_data)).2) = ""
  ∧ (checkResponse (L := Sample.library) (Sample.response 202 "OK")).2
    = Sample.response 202 "OK".
Proof.
  assert (¬ success 400) as H400 by (unfold success; lia).
  destruct (checkResponse_state (L := Sample.library)
              (Sample.response 400 Sample.invalid_data)) as (_ & _ & Hfail).
  destruct (Hfail H400) as (Hstatus & _ & Hpending & _).
  { intros _ _. vm_compute. reflexivity. }
  destruct (checkResponse_state (L := Sample.library) (Sample.response 202 "OK"))
    as [Hok _].
  split; [exact Hstatus|]. split; [exact Hpending|]. apply Hok. by left.
Defined.

(** * The classifier on bodies with a member [Response] *)

Section ResponseMember.

Import Sample.
Existing Instance library.

(** A 400 whose body sets the status code to 200: the first call returns
    the generic error, with 200 in its text, and leaves the response with
    that status; the second call takes it for a success. *)
Example test_status_overwritten :
  ∃ e r1,
    checkResponse (response 400 response_200) = (Some (ErrorResponse_ptr e), r1)
    ∧ Error (ErrorResponse_ptr e)
      = Some "GET https://connect.mailerlite.com/api/subscribers: 200 "
    ∧ http.StatusCode r1 = 200
    ∧ checkResponse r1 = (None, r1).
Proof. do 2 eexists. repeat split; vm_compute; reflexivity. Qed.

(** A body that sets the field to nil: the response carries its request,
    and [Error] panics all the same. *)
Example test_Response_null :
  ∃ e,
    (checkResponse (response 400 Response_null)).1 = Some (ErrorResponse_ptr e)
    ∧ er_Response e = None
    ∧ Error (ErrorResponse_ptr e) = None.
Proof. eexists. repeat split; vm_compute; reflexivity. Qed.

End ResponseMember.
